(** * LuvvTapp client (luvvtapp-react/src/App.jsx): view controller and its
      HTTP contract

    A shallow embedding of the React view controller: the [useState] cells of
    [App] become a record, every event handler becomes a function in a small
    state-and-exception monad over a world made of the UI state, the browser's
    local storage, the requests handed to [fetch] and the lines written with
    [console.error].

    Conventions of the embedding.
    - A JS string is a [string]; one character of the model stands for one
      code unit (code units below 256 only).
    - [null] state cells are [option] ([None] is [null]); a property of a
      server object that the code guards against absence is an [option]
      ([None] is [undefined]), and documents that the client only stores and
      forwards (partner profile, self assessment) are [json] values.
    - A response with [res.ok] carries the body that the contract of its
      endpoint gives ([res.json()] resolves to a value of that type); the
      body of any other response is never read.
    - A handler closes over the values of the render it was created in: it
      takes that render as its first argument [c], reads plain variables
      from [c] and only functional updates ([setX(prev => ...)]) read the
      current cell.
    - A call of a setter queues its update; React shows it from the next
      render on. The [ui] of a world holds the cells with every queued
      update applied, that is the cells as the next render has them, not as
      the running handler sees them (those are [c]). The order in which the
      setters of [App] and [fetch] are called is kept in [order].
    - An [await]ed request is answered by an argument of the handler (the
      reply the network gives); a handler runs to its end before the next
      event, and a call to an async function that is not awaited is run in
      place, its completion dropped. *)

From Stdlib Require Import ZArith Ascii String.
From stdpp Require Import base numbers option list strings gmap pretty.

(** ** JavaScript strings *)

Module JsString.

(** White space and line terminators removed by [String.prototype.trim]. *)
Definition is_white_space (a : ascii) : bool :=
  match a with
  | "009" | "010" | "011" | "012" | "013" | " " | "160" => true
  | _ => false
  end%char.

Fixpoint trimStart (s : string) : string :=
  match s with
  | String a s' => if is_white_space a then trimStart s' else s
  | EmptyString => EmptyString
  end.

Definition trimEnd (s : string) : string :=
  String.rev (trimStart (String.rev s)).

Definition trim (s : string) : string := trimEnd (trimStart s).

(** [s.slice(0, n)]. *)
Fixpoint slice0 (n : nat) (s : string) : string :=
  match n, s with
  | S n', String a s' => String a (slice0 n' s')
  | _, _ => EmptyString
  end.

#[global] Arguments slice0 : simpl never.

(** [s.split(sep)] for a separator of one character. *)
Fixpoint split_go (sep : ascii) (cur : string) (s : string) : list string :=
  match s with
  | EmptyString => [String.rev cur]
  | String a s' =>
      if Ascii.eqb a sep then String.rev cur :: split_go sep EmptyString s'
      else split_go sep (String a cur) s'
  end.
Definition split (sep : ascii) (s : string) : list string :=
  split_go sep EmptyString s.

(** Truthiness of a string: every string but the empty one. *)
Definition truthy (s : string) : bool :=
  match s with EmptyString => false | _ => true end.

(** [s || d] on strings. *)
Definition or_else (s d : string) : string := if truthy s then s else d.

End JsString.

(** ** JSON documents *)

(** A parsed document. The properties of an object are in the order of the
    text and no key occurs twice. *)
#[local] Unset Elimination Schemes.
Inductive json : Type :=
| JNull
| JBool (b : bool)
| JNum (n : Z)
| JStr (s : string)
| JArr (items : list json)
| JObj (props : list (string * json)).
#[local] Set Elimination Schemes.

Module Json.

(** ToBoolean on a value that came out of [JSON.parse]. *)
Definition truthy (v : json) : bool :=
  match v with
  | JNull => false
  | JBool b => b
  | JNum n => negb (Z.eqb n 0)
  | JStr s => JsString.truthy s
  | JArr _ | JObj _ => true
  end.

Fixpoint assoc (k : string) (props : list (string * json)) : option json :=
  match props with
  | [] => None
  | (k', v) :: rest => if String.eqb k k' then Some v else assoc k rest
  end.

(** [v?.k] for an own property of an object: [None] is [undefined]. *)
Definition get (k : string) (v : json) : option json :=
  match v with JObj props => assoc k props | _ => None end.

Definition keys (v : json) : list string :=
  match v with JObj props => props.*1 | _ => [] end.

(** An object literal: a property whose value is [undefined] ([None]) is
    left out by [JSON.stringify], a [null] one is kept. *)
Definition literal := list (string * option json).

Definition stringify_props (o : literal) : list (string * json) :=
  omap (fun kv => match kv.2 with Some v => Some (kv.1, v) | None => None end) o.

(** [JSON.stringify(o)], as the document the text denotes. *)
Definition stringify (o : literal) : json := JObj (stringify_props o).

Definition str (s : string) : option json := Some (JStr s).
(** [s || undefined] *)
Definition str_or_undefined (s : string) : option json :=
  if JsString.truthy s then Some (JStr s) else None.
(** a nullable string: [null] stays [null] *)
Definition nullable (s : option string) : option json :=
  Some (match s with Some x => JStr x | None => JNull end).
Definition strings (l : list string) : json := JArr (JStr <$> l).

End Json.

(** ** Data exchanged with the backend *)

Module Message.
Record t := mk { role : string; content : string }.
End Message.

Module UserProfile.
(** The record of [GET /api/users/{id}]; [self_assessment] may be missing
    ([None]) or [null]. *)
Record t := mk { name : string; email : string; self_assessment : option json }.
End UserProfile.

Module Relationship.
Record t := mk { relationship_type : string; partner_profile : option json }.
(** [(r.partner_profile?.name || '') === value]: a name that is not a
    string is never equal to [value], unless it is falsy. *)
Definition named (value : string) (r : t) : bool :=
  match partner_profile r ≫= Json.get "name" with
  | Some (JStr n) => bool_decide (JsString.or_else n "" = value)
  | Some v => if Json.truthy v then false else bool_decide ("" = value)
  | None => bool_decide ("" = value)
  end.
End Relationship.

Module Session.
Record t := mk {
  session_id : string;
  context_type : option string;
  relationship_type : option string;
  partner_profile : option json;
  updated_at : string }.
End Session.

Module AdviceItem.
(** An entry of the advice list, with its preview. *)
Record t := mk { advice_id : string; topic : string; preview : string }.
End AdviceItem.

Module Advice.
Record t := mk {
  advice_id : string; topic : string; content : string; created_at : string }.
End Advice.

Module History.
(** [GET /api/sessions/{id}/history]: every field is guarded by the client. *)
Record t := mk {
  messages : option (list Message.t);
  partner_profile : option json;
  relationship_type : option string }.
End History.

Module ChatReply.
Record t := mk { session_id : string; response : string }.
End ChatReply.

(** ** The state cells of [App] *)

Inductive view := chat | addPartner | addRelationship | settings.

Record AppState := mkApp {
  currentView : view;
  userId : option string;
  userProfile : option UserProfile.t;
  relationships : list Relationship.t;
  selectedRelationship : option Relationship.t;
  messages : list Message.t;
  adviceOpen : bool;
  adviceTopic : string;
  adviceSituation : string;
  advicePartner : option Relationship.t;
  adviceLoading : bool;
  adviceList : list AdviceItem.t;
  selectedAdvice : option Advice.t;
  sessions : list Session.t;
  inputMessage : string;
  sessionId : option string;
  loading : bool;
  sidebarOpen : bool }.

(** Record updates, one per [useState] setter. *)
Definition upd_currentView (v : view) (s : AppState) : AppState :=
  {| currentView := v; userId := userId s; userProfile := userProfile s;
     relationships := relationships s; selectedRelationship :=
     selectedRelationship s; messages := messages s; adviceOpen :=
     adviceOpen s; adviceTopic := adviceTopic s; adviceSituation :=
     adviceSituation s; advicePartner := advicePartner s; adviceLoading :=
     adviceLoading s; adviceList := adviceList s; selectedAdvice :=
     selectedAdvice s; sessions := sessions s; inputMessage := inputMessage
     s; sessionId := sessionId s; loading := loading s; sidebarOpen :=
     sidebarOpen s |}.
Definition upd_userId (v : option string) (s : AppState) : AppState :=
  {| currentView := currentView s; userId := v; userProfile := userProfile
     s; relationships := relationships s; selectedRelationship :=
     selectedRelationship s; messages := messages s; adviceOpen :=
     adviceOpen s; adviceTopic := adviceTopic s; adviceSituation :=
     adviceSituation s; advicePartner := advicePartner s; adviceLoading :=
     adviceLoading s; adviceList := adviceList s; selectedAdvice :=
     selectedAdvice s; sessions := sessions s; inputMessage := inputMessage
     s; sessionId := sessionId s; loading := loading s; sidebarOpen :=
     sidebarOpen s |}.
Definition upd_userProfile (v : option UserProfile.t) (s : AppState) : AppState :=
  {| currentView := currentView s; userId := userId s; userProfile := v;
     relationships := relationships s; selectedRelationship :=
     selectedRelationship s; messages := messages s; adviceOpen :=
     adviceOpen s; adviceTopic := adviceTopic s; adviceSituation :=
     adviceSituation s; advicePartner := advicePartner s; adviceLoading :=
     adviceLoading s; adviceList := adviceList s; selectedAdvice :=
     selectedAdvice s; sessions := sessions s; inputMessage := inputMessage
     s; sessionId := sessionId s; loading := loading s; sidebarOpen :=
     sidebarOpen s |}.
Definition upd_relationships (v : list Relationship.t) (s : AppState) : AppState :=
  {| currentView := currentView s; userId := userId s; userProfile :=
     userProfile s; relationships := v; selectedRelationship :=
     selectedRelationship s; messages := messages s; adviceOpen :=
     adviceOpen s; adviceTopic := adviceTopic s; adviceSituation :=
     adviceSituation s; advicePartner := advicePartner s; adviceLoading :=
     adviceLoading s; adviceList := adviceList s; selectedAdvice :=
     selectedAdvice s; sessions := sessions s; inputMessage := inputMessage
     s; sessionId := sessionId s; loading := loading s; sidebarOpen :=
     sidebarOpen s |}.
Definition upd_selectedRelationship (v : option Relationship.t) (s : AppState) : AppState :=
  {| currentView := currentView s; userId := userId s; userProfile :=
     userProfile s; relationships := relationships s; selectedRelationship
     := v; messages := messages s; adviceOpen := adviceOpen s; adviceTopic
     := adviceTopic s; adviceSituation := adviceSituation s; advicePartner
     := advicePartner s; adviceLoading := adviceLoading s; adviceList :=
     adviceList s; selectedAdvice := selectedAdvice s; sessions := sessions
     s; inputMessage := inputMessage s; sessionId := sessionId s; loading :=
     loading s; sidebarOpen := sidebarOpen s |}.
Definition upd_messages (v : list Message.t) (s : AppState) : AppState :=
  {| currentView := currentView s; userId := userId s; userProfile :=
     userProfile s; relationships := relationships s; selectedRelationship
     := selectedRelationship s; messages := v; adviceOpen := adviceOpen s;
     adviceTopic := adviceTopic s; adviceSituation := adviceSituation s;
     advicePartner := advicePartner s; adviceLoading := adviceLoading s;
     adviceList := adviceList s; selectedAdvice := selectedAdvice s;
     sessions := sessions s; inputMessage := inputMessage s; sessionId :=
     sessionId s; loading := loading s; sidebarOpen := sidebarOpen s |}.
Definition upd_adviceOpen (v : bool) (s : AppState) : AppState :=
  {| currentView := currentView s; userId := userId s; userProfile :=
     userProfile s; relationships := relationships s; selectedRelationship
     := selectedRelationship s; messages := messages s; adviceOpen := v;
     adviceTopic := adviceTopic s; adviceSituation := adviceSituation s;
     advicePartner := advicePartner s; adviceLoading := adviceLoading s;
     adviceList := adviceList s; selectedAdvice := selectedAdvice s;
     sessions := sessions s; inputMessage := inputMessage s; sessionId :=
     sessionId s; loading := loading s; sidebarOpen := sidebarOpen s |}.
Definition upd_adviceTopic (v : string) (s : AppState) : AppState :=
  {| currentView := currentView s; userId := userId s; userProfile :=
     userProfile s; relationships := relationships s; selectedRelationship
     := selectedRelationship s; messages := messages s; adviceOpen :=
     adviceOpen s; adviceTopic := v; adviceSituation := adviceSituation s;
     advicePartner := advicePartner s; adviceLoading := adviceLoading s;
     adviceList := adviceList s; selectedAdvice := selectedAdvice s;
     sessions := sessions s; inputMessage := inputMessage s; sessionId :=
     sessionId s; loading := loading s; sidebarOpen := sidebarOpen s |}.
Definition upd_adviceSituation (v : string) (s : AppState) : AppState :=
  {| currentView := currentView s; userId := userId s; userProfile :=
     userProfile s; relationships := relationships s; selectedRelationship
     := selectedRelationship s; messages := messages s; adviceOpen :=
     adviceOpen s; adviceTopic := adviceTopic s; adviceSituation := v;
     advicePartner := advicePartner s; adviceLoading := adviceLoading s;
     adviceList := adviceList s; selectedAdvice := selectedAdvice s;
     sessions := sessions s; inputMessage := inputMessage s; sessionId :=
     sessionId s; loading := loading s; sidebarOpen := sidebarOpen s |}.
Definition upd_advicePartner (v : option Relationship.t) (s : AppState) : AppState :=
  {| currentView := currentView s; userId := userId s; userProfile :=
     userProfile s; relationships := relationships s; selectedRelationship
     := selectedRelationship s; messages := messages s; adviceOpen :=
     adviceOpen s; adviceTopic := adviceTopic s; adviceSituation :=
     adviceSituation s; advicePartner := v; adviceLoading := adviceLoading
     s; adviceList := adviceList s; selectedAdvice := selectedAdvice s;
     sessions := sessions s; inputMessage := inputMessage s; sessionId :=
     sessionId s; loading := loading s; sidebarOpen := sidebarOpen s |}.
Definition upd_adviceLoading (v : bool) (s : AppState) : AppState :=
  {| currentView := currentView s; userId := userId s; userProfile :=
     userProfile s; relationships := relationships s; selectedRelationship
     := selectedRelationship s; messages := messages s; adviceOpen :=
     adviceOpen s; adviceTopic := adviceTopic s; adviceSituation :=
     adviceSituation s; advicePartner := advicePartner s; adviceLoading :=
     v; adviceList := adviceList s; selectedAdvice := selectedAdvice s;
     sessions := sessions s; inputMessage := inputMessage s; sessionId :=
     sessionId s; loading := loading s; sidebarOpen := sidebarOpen s |}.
Definition upd_adviceList (v : list AdviceItem.t) (s : AppState) : AppState :=
  {| currentView := currentView s; userId := userId s; userProfile :=
     userProfile s; relationships := relationships s; selectedRelationship
     := selectedRelationship s; messages := messages s; adviceOpen :=
     adviceOpen s; adviceTopic := adviceTopic s; adviceSituation :=
     adviceSituation s; advicePartner := advicePartner s; adviceLoading :=
     adviceLoading s; adviceList := v; selectedAdvice := selectedAdvice s;
     sessions := sessions s; inputMessage := inputMessage s; sessionId :=
     sessionId s; loading := loading s; sidebarOpen := sidebarOpen s |}.
Definition upd_selectedAdvice (v : option Advice.t) (s : AppState) : AppState :=
  {| currentView := currentView s; userId := userId s; userProfile :=
     userProfile s; relationships := relationships s; selectedRelationship
     := selectedRelationship s; messages := messages s; adviceOpen :=
     adviceOpen s; adviceTopic := adviceTopic s; adviceSituation :=
     adviceSituation s; advicePartner := advicePartner s; adviceLoading :=
     adviceLoading s; adviceList := adviceList s; selectedAdvice := v;
     sessions := sessions s; inputMessage := inputMessage s; sessionId :=
     sessionId s; loading := loading s; sidebarOpen := sidebarOpen s |}.
Definition upd_sessions (v : list Session.t) (s : AppState) : AppState :=
  {| currentView := currentView s; userId := userId s; userProfile :=
     userProfile s; relationships := relationships s; selectedRelationship
     := selectedRelationship s; messages := messages s; adviceOpen :=
     adviceOpen s; adviceTopic := adviceTopic s; adviceSituation :=
     adviceSituation s; advicePartner := advicePartner s; adviceLoading :=
     adviceLoading s; adviceList := adviceList s; selectedAdvice :=
     selectedAdvice s; sessions := v; inputMessage := inputMessage s;
     sessionId := sessionId s; loading := loading s; sidebarOpen :=
     sidebarOpen s |}.
Definition upd_inputMessage (v : string) (s : AppState) : AppState :=
  {| currentView := currentView s; userId := userId s; userProfile :=
     userProfile s; relationships := relationships s; selectedRelationship
     := selectedRelationship s; messages := messages s; adviceOpen :=
     adviceOpen s; adviceTopic := adviceTopic s; adviceSituation :=
     adviceSituation s; advicePartner := advicePartner s; adviceLoading :=
     adviceLoading s; adviceList := adviceList s; selectedAdvice :=
     selectedAdvice s; sessions := sessions s; inputMessage := v; sessionId
     := sessionId s; loading := loading s; sidebarOpen := sidebarOpen s |}.
Definition upd_sessionId (v : option string) (s : AppState) : AppState :=
  {| currentView := currentView s; userId := userId s; userProfile :=
     userProfile s; relationships := relationships s; selectedRelationship
     := selectedRelationship s; messages := messages s; adviceOpen :=
     adviceOpen s; adviceTopic := adviceTopic s; adviceSituation :=
     adviceSituation s; advicePartner := advicePartner s; adviceLoading :=
     adviceLoading s; adviceList := adviceList s; selectedAdvice :=
     selectedAdvice s; sessions := sessions s; inputMessage := inputMessage
     s; sessionId := v; loading := loading s; sidebarOpen := sidebarOpen s
     |}.
Definition upd_loading (v : bool) (s : AppState) : AppState :=
  {| currentView := currentView s; userId := userId s; userProfile :=
     userProfile s; relationships := relationships s; selectedRelationship
     := selectedRelationship s; messages := messages s; adviceOpen :=
     adviceOpen s; adviceTopic := adviceTopic s; adviceSituation :=
     adviceSituation s; advicePartner := advicePartner s; adviceLoading :=
     adviceLoading s; adviceList := adviceList s; selectedAdvice :=
     selectedAdvice s; sessions := sessions s; inputMessage := inputMessage
     s; sessionId := sessionId s; loading := v; sidebarOpen := sidebarOpen s
     |}.
Definition upd_sidebarOpen (v : bool) (s : AppState) : AppState :=
  {| currentView := currentView s; userId := userId s; userProfile :=
     userProfile s; relationships := relationships s; selectedRelationship
     := selectedRelationship s; messages := messages s; adviceOpen :=
     adviceOpen s; adviceTopic := adviceTopic s; adviceSituation :=
     adviceSituation s; advicePartner := advicePartner s; adviceLoading :=
     adviceLoading s; adviceList := adviceList s; selectedAdvice :=
     selectedAdvice s; sessions := sessions s; inputMessage := inputMessage
     s; sessionId := sessionId s; loading := loading s; sidebarOpen := v |}.

(** ** Local state of the child components *)

Module Onboarding.
Record form := mkForm {
  name : string; email : string;
  personalityType : string; loveLanguage : string; communicationStyle : string }.
Record state := mk { step : nat; formData : form }.
Definition initial : state := mk 1 (mkForm "" "" "" "" "").
Inductive field := f_name | f_email | f_personalityType | f_loveLanguage
                 | f_communicationStyle.
(** [{ ...formData, k: v }] *)
Definition with_field (k : field) (v : string) (f : form) : form :=
  match k with
  | f_name => mkForm v (email f) (personalityType f) (loveLanguage f) (communicationStyle f)
  | f_email => mkForm (name f) v (personalityType f) (loveLanguage f) (communicationStyle f)
  | f_personalityType => mkForm (name f) (email f) v (loveLanguage f) (communicationStyle f)
  | f_loveLanguage => mkForm (name f) (email f) (personalityType f) v (communicationStyle f)
  | f_communicationStyle => mkForm (name f) (email f) (personalityType f) (loveLanguage f) v
  end.
End Onboarding.

Module AddRelationship.
Record form := mkForm {
  type : string; name : string;
  personalityType : string; loveLanguage : string; interests : string }.
Definition initial : form := mkForm "romantic" "" "" "" "".
Inductive field := f_type | f_name | f_personalityType | f_loveLanguage | f_interests.
Definition with_field (k : field) (v : string) (f : form) : form :=
  match k with
  | f_type => mkForm v (name f) (personalityType f) (loveLanguage f) (interests f)
  | f_name => mkForm (type f) v (personalityType f) (loveLanguage f) (interests f)
  | f_personalityType => mkForm (type f) (name f) v (loveLanguage f) (interests f)
  | f_loveLanguage => mkForm (type f) (name f) (personalityType f) v (interests f)
  | f_interests => mkForm (type f) (name f) (personalityType f) (loveLanguage f) v
  end.
End AddRelationship.

Module Wizard.
Record form := mkForm {
  name : string; birthday : string; relationship_status : string;
  anniversary_dates : string; love_language : string; zodiac_sign : string;
  music_preferences : string; religious_beliefs : string;
  ideal_vacations : string; hobbies : string;
  fashion_preferences : string; dietary_restrictions : string }.
Record state := mk { step : nat; saving : bool; form_ : form }.
Definition total : nat := 3.
Definition initial : state :=
  mk 1 false (mkForm "" "" "romantic" "" "" "" "" "" "" "" "" "").
Inductive field :=
| f_name | f_birthday | f_relationship_status | f_anniversary_dates
| f_love_language | f_zodiac_sign | f_music_preferences | f_religious_beliefs
| f_ideal_vacations | f_hobbies | f_fashion_preferences | f_dietary_restrictions.
Definition with_field (k : field) (v : string) (f : form) : form :=
  let '(mkForm a b c d e g h i j l m n) := f in
  match k with
  | f_name => mkForm v b c d e g h i j l m n
  | f_birthday => mkForm a v c d e g h i j l m n
  | f_relationship_status => mkForm a b v d e g h i j l m n
  | f_anniversary_dates => mkForm a b c v e g h i j l m n
  | f_love_language => mkForm a b c d v g h i j l m n
  | f_zodiac_sign => mkForm a b c d e v h i j l m n
  | f_music_preferences => mkForm a b c d e g v i j l m n
  | f_religious_beliefs => mkForm a b c d e g h v j l m n
  | f_ideal_vacations => mkForm a b c d e g h i v l m n
  | f_hobbies => mkForm a b c d e g h i j v m n
  | f_fashion_preferences => mkForm a b c d e g h i j l v n
  | f_dietary_restrictions => mkForm a b c d e g h i j l m v
  end.
End Wizard.

(** ** The world a handler runs in *)

Module Request.
Record t := mk {
  method : string; url : string;
  headers : list (string * string);
  body : option json }.
End Request.

(** A call of a setter of [App], with the update it queues, or a call of
    [fetch]. *)
Inductive call_entry :=
| Queued (update : AppState -> AppState)
| Fetched (req : Request.t).

Inductive storage_op :=
| getItem (key : string)
| setItem (key value : string)
| removeItem (key : string).

Definition op_key (o : storage_op) : string :=
  match o with getItem k | setItem k _ | removeItem k => k end.

Record World := mkWorld {
  ui : AppState;
  onboarding : Onboarding.state;
  addRelationshipForm : AddRelationship.form;
  wizard : Wizard.state;
  localStorage : gmap string string;
  storage_ops : list storage_op;     (* every call on [localStorage], in order *)
  requests : list Request.t;         (* every call of [fetch], in order *)
  order : list call_entry;           (* the calls of setters and of [fetch], in order *)
  console : list (string * string)   (* every [console.error(label, error)] *)
}.

(** ** Replies of the network *)

Inductive response (A : Type) : Type :=
| Success (data : A)      (* [res.ok]; [res.json()] gives [data] *)
| Failure (status : nat). (* a status outside 200..299: [res.ok] is false *)
Arguments Success {A} data.
Arguments Failure {A} status.

Definition ok {A} (res : response A) : bool :=
  match res with Success _ => true | Failure _ => false end.

Inductive reply (A : Type) : Type :=
| Rejected (error : string)       (* [fetch] rejects: no response at all *)
| Resolved (res : response A).
Arguments Rejected {A} error.
Arguments Resolved {A} res.

(** The request got no successful response. *)
Definition failed {A} (net : reply A) : bool :=
  match net with Resolved (Success _) => false | _ => true end.

(** ** The monad of handlers: state and exceptions *)

Inductive completion (A : Type) : Type :=
| Normal (a : A)
| Throw (e : string).
Arguments Normal {A} a.
Arguments Throw {A} e.

Definition M (A : Type) : Type := World -> completion A * World.

#[global] Instance M_ret : MRet M := fun A a w => (Normal a, w).
#[global] Instance M_bind : MBind M := fun A B f m w =>
  match m w with
  | (Normal a, w') => f a w'
  | (Throw e, w') => (Throw e, w')
  end.

Definition skip : M unit := mret tt.

(** [try { body } catch (e) { handler e }] *)
Definition try_catch (body : M unit) (handler : string -> M unit) : M unit :=
  fun w => match body w with
           | (Normal a, w') => (Normal a, w')
           | (Throw e, w') => handler e w'
           end.

(** [try { body } finally { fin }] *)
Definition try_finally (body : M unit) (fin : M unit) : M unit :=
  fun w => let '(c, w') := body w in
           match fin w' with
           | (Normal _, w'') => (c, w'')
           | (Throw e, w'') => (Throw e, w'')
           end.

(** A call of an async function that is not awaited: the caller goes on
    whatever becomes of the promise. *)
Definition no_await (m : M unit) : M unit :=
  fun w => (Normal tt, (m w).2).

Definition exec (m : M unit) (w : World) : World := (m w).2.
Definition outcome (m : M unit) (w : World) : completion unit := (m w).1.

Definition with_ui (f : AppState -> AppState) (w : World) : World :=
  mkWorld (f (ui w)) (onboarding w) (addRelationshipForm w) (wizard w)
    (localStorage w) (storage_ops w) (requests w) (order w) (console w).
Definition with_onboarding (f : Onboarding.state -> Onboarding.state) (w : World) : World :=
  mkWorld (ui w) (f (onboarding w)) (addRelationshipForm w) (wizard w)
    (localStorage w) (storage_ops w) (requests w) (order w) (console w).
Definition with_addRelationshipForm
    (f : AddRelationship.form -> AddRelationship.form) (w : World) : World :=
  mkWorld (ui w) (onboarding w) (f (addRelationshipForm w)) (wizard w)
    (localStorage w) (storage_ops w) (requests w) (order w) (console w).
Definition with_wizard (f : Wizard.state -> Wizard.state) (w : World) : World :=
  mkWorld (ui w) (onboarding w) (addRelationshipForm w) (f (wizard w))
    (localStorage w) (storage_ops w) (requests w) (order w) (console w).

(** The world once the update [f] is queued. *)
Definition queue (f : AppState -> AppState) (w : World) : World :=
  mkWorld (f (ui w)) (onboarding w) (addRelationshipForm w) (wizard w)
    (localStorage w) (storage_ops w) (requests w)
    (order w ++ [Queued f]) (console w).

(** A setter of [App] is called with the update [f]. *)
Definition modify (f : AppState -> AppState) : M unit :=
  fun w => (Normal tt, queue f w).

(** [fetch(url, init)]: the request leaves, then the promise settles. *)
Definition fetch {A} (req : Request.t) (net : reply A) : M (response A) :=
  fun w =>
    (match net with Rejected e => Throw e | Resolved res => Normal res end,
     mkWorld (ui w) (onboarding w) (addRelationshipForm w) (wizard w)
       (localStorage w) (storage_ops w) (requests w ++ [req]) (order w ++ [Fetched req]) (console w)).

Definition console_error (label : string) (e : string) : M unit :=
  fun w =>
    (Normal tt,
     mkWorld (ui w) (onboarding w) (addRelationshipForm w) (wizard w)
       (localStorage w) (storage_ops w) (requests w) (order w) (console w ++ [(label, e)])).

Definition localStorage_getItem (k : string) : M (option string) :=
  fun w =>
    (Normal (localStorage w !! k),
     mkWorld (ui w) (onboarding w) (addRelationshipForm w) (wizard w)
       (localStorage w) (storage_ops w ++ [getItem k]) (requests w) (order w) (console w)).

Definition localStorage_setItem (k v : string) : M unit :=
  fun w =>
    (Normal tt,
     mkWorld (ui w) (onboarding w) (addRelationshipForm w) (wizard w)
       (<[k:=v]> (localStorage w)) (storage_ops w ++ [setItem k v])
       (requests w) (order w) (console w)).

Definition localStorage_removeItem (k : string) : M unit :=
  fun w =>
    (Normal tt,
     mkWorld (ui w) (onboarding w) (addRelationshipForm w) (wizard w)
       (delete k (localStorage w)) (storage_ops w ++ [removeItem k])
       (requests w) (order w) (console w)).

(** The setters of [App]. *)
Definition setCurrentView v := modify (upd_currentView v).
Definition setUserId v := modify (upd_userId v).
Definition setUserProfile v := modify (upd_userProfile v).
Definition setRelationships v := modify (upd_relationships v).
Definition setSelectedRelationship v := modify (upd_selectedRelationship v).
Definition setMessages v := modify (upd_messages v).
(** [setMessages(prev => f prev)] *)
Definition setMessages_prev (f : list Message.t -> list Message.t) :=
  modify (fun s => upd_messages (f (messages s)) s).
Definition setAdviceOpen v := modify (upd_adviceOpen v).
Definition setAdviceTopic v := modify (upd_adviceTopic v).
Definition setAdviceSituation v := modify (upd_adviceSituation v).
Definition setAdvicePartner v := modify (upd_advicePartner v).
Definition setAdviceLoading v := modify (upd_adviceLoading v).
Definition setAdviceList v := modify (upd_adviceList v).
(** [setAdviceList(prev => f prev)] *)
Definition setAdviceList_prev (f : list AdviceItem.t -> list AdviceItem.t) :=
  modify (fun s => upd_adviceList (f (adviceList s)) s).
Definition setSelectedAdvice v := modify (upd_selectedAdvice v).
Definition setSessions v := modify (upd_sessions v).
Definition setInputMessage v := modify (upd_inputMessage v).
Definition setSessionId v := modify (upd_sessionId v).
Definition setLoading v := modify (upd_loading v).
Definition setSidebarOpen v := modify (upd_sidebarOpen v).

(** ** Requests *)

Definition API_BASE_URL : string := "http://localhost:8000".

(** [`${x}`] for a nullable string *)
Definition template (x : option string) : string := default "null" x.

(** [!x] for a nullable string *)
Definition falsy (x : option string) : bool :=
  match x with Some s => negb (JsString.truthy s) | None => true end.

Definition GET (url : string) : Request.t := Request.mk "GET" url [] None.
Definition DELETE (url : string) : Request.t := Request.mk "DELETE" url [] None.
Definition POST (url : string) (o : Json.literal) : Request.t :=
  Request.mk "POST" url [("Content-Type", "application/json")]
    (Some (Json.stringify o)).

(** ** The handlers of [App]

    [c] is the render the handler closes over. *)

Definition openSession (s : Session.t) (net : reply History.t) : M unit :=
  try_catch
    (res ← fetch (GET (API_BASE_URL +:+ "/api/sessions/" +:+ Session.session_id s
                        +:+ "/history")) net;
     match res with
     | Success data =>
         setSessionId (Some (Session.session_id s));;
         (match History.partner_profile data with
          | Some pp =>
              if Json.truthy pp then
                setSelectedRelationship
                  (Some (Relationship.mk
                           (JsString.or_else (default "" (History.relationship_type data))
                              "general")
                           (Some pp)))
              else setSelectedRelationship None
          | None => setSelectedRelationship None
          end);;
         setMessages
           ((fun m => Message.mk (Message.role m) (Message.content m))
              <$> default [] (History.messages data));;
         setCurrentView chat;;
         setSidebarOpen false
     | Failure _ => skip
     end)
    (fun e => console_error "Error opening session:" e).

Definition loadUserProfile (c : AppState) (net : reply UserProfile.t) : M unit :=
  try_catch
    (response ← fetch (GET (API_BASE_URL +:+ "/api/users/" +:+ template (userId c))) net;
     match response with
     | Success data => setUserProfile (Some data)
     | Failure _ => skip
     end)
    (fun error => console_error "Error loading profile:" error).

Definition loadRelationships (c : AppState)
    (net : reply (option (list Relationship.t))) : M unit :=
  try_catch
    (response ← fetch (GET (API_BASE_URL +:+ "/api/relationships/"
                             +:+ template (userId c))) net;
     match response with
     | Success data => setRelationships (default [] data)
     | Failure _ => skip
     end)
    (fun error => console_error "Error loading relationships:" error).

Definition loadAdviceList (c : AppState)
    (net : reply (option (list AdviceItem.t))) : M unit :=
  try_catch
    (if falsy (userId c) then skip else
     res ← fetch (GET (API_BASE_URL +:+ "/api/advice/" +:+ template (userId c))) net;
     match res with
     | Success data => setAdviceList (default [] data)
     | Failure _ => skip
     end)
    (fun e => console_error "Error loading advice list:" e).

Definition loadSessions (c : AppState)
    (net : reply (option (list Session.t))) : M unit :=
  try_catch
    (if falsy (userId c) then skip else
     response ← fetch (GET (API_BASE_URL +:+ "/api/sessions/"
                             +:+ template (userId c))) net;
     match response with
     | Success data => setSessions (default [] data)
     | Failure _ => skip
     end)
    (fun error => console_error "Error loading sessions:" error).

(** [now] is the value of [Date.now()]. *)
Definition createUser (c : AppState) (now : N)
    (net : reply unit) (netProfile : reply UserProfile.t)
    (name email : string) (assessment : json) : M unit :=
  try_catch
    (let newUserId := "user_" +:+ pretty now in
     response ← fetch (POST (API_BASE_URL +:+ "/api/users")
                         [("user_id", Json.str newUserId);
                          ("name", Json.str name);
                          ("email", Json.str email);
                          ("self_assessment", Some assessment)]) net;
     if ok response then
       setUserId (Some newUserId);;
       localStorage_setItem "luvvtapp_user_id" newUserId;;
       no_await (loadUserProfile c netProfile)
     else skip)
    (fun error => console_error "Error creating user:" error).

(** The body of [POST /api/chat] as [sendMessage] writes it. *)
Definition chat_payload (c : AppState) : Json.literal :=
  [("user_id", Json.nullable (userId c));
   ("message", Json.str (inputMessage c));
   ("relationship_type",
     Json.str (JsString.or_else
                 (default "" (Relationship.relationship_type <$> selectedRelationship c))
                 "general"));
   ("partner_profile", selectedRelationship c ≫= Relationship.partner_profile);
   ("self_assessment", userProfile c ≫= UserProfile.self_assessment);
   ("session_id", Json.nullable (sessionId c))].

Definition sendMessage (c : AppState) (net : reply ChatReply.t) : M unit :=
  if negb (JsString.truthy (JsString.trim (inputMessage c))) then skip else
  let userMsg := Message.mk "user" (inputMessage c) in
  setMessages (messages c ++ [userMsg]);;
  setInputMessage "";;
  setLoading true;;
  try_finally
    (try_catch
       (response ← fetch (POST (API_BASE_URL +:+ "/api/chat") (chat_payload c)) net;
        match response with
        | Success data =>
            setSessionId (Some (ChatReply.session_id data));;
            setMessages_prev
              (fun prev => prev ++ [Message.mk "assistant" (ChatReply.response data)])
        | Failure _ => skip
        end)
       (fun error => console_error "Error sending message:" error))
    (setLoading false).

(** The body of [POST /api/advice] as [submitAdvice] writes it. *)
Definition advice_payload (c : AppState) : Json.literal :=
  [("user_id", Json.nullable (userId c));
   ("topic", Json.str (adviceTopic c));
   ("situation", Json.str (JsString.slice0 1000 (adviceSituation c)));
   ("partner_profile", advicePartner c ≫= Relationship.partner_profile);
   ("self_assessment", userProfile c ≫= UserProfile.self_assessment)].

Definition submitAdvice (c : AppState)
    (net : reply Advice.t) (netList : reply (option (list AdviceItem.t))) : M unit :=
  if negb (JsString.truthy (adviceTopic c))
     || negb (JsString.truthy (JsString.trim (adviceSituation c)))
  then skip else
  setAdviceLoading true;;
  try_finally
    (try_catch
       (let payload := advice_payload c in
        res ← fetch (POST (API_BASE_URL +:+ "/api/advice") payload) net;
        match res with
        | Success data =>
            setSelectedAdvice
              (Some (Advice.mk (Advice.advice_id data) (Advice.topic data)
                       (Advice.content data) (Advice.created_at data)));;
            setAdviceOpen false;;
            setAdviceSituation "";;
            setAdvicePartner None;;
            no_await (loadAdviceList c netList)
        | Failure _ => skip
        end)
       (fun e => console_error "Advice request failed:" e))
    (setAdviceLoading false).

Definition openAdvice (item : AdviceItem.t) (net : reply Advice.t) : M unit :=
  try_catch
    (if negb (JsString.truthy (AdviceItem.advice_id item)) then skip else
     res ← fetch (GET (API_BASE_URL +:+ "/api/advice/item/"
                        +:+ AdviceItem.advice_id item)) net;
     match res with
     | Success full =>
         setSelectedAdvice (Some full);;
         setCurrentView chat;;
         setSidebarOpen false
     | Failure _ => skip
     end)
    (fun e => console_error "Failed to open advice:" e).

(** [selectedAdvice?.advice_id === advice_id] *)
Definition views_advice (c : AppState) (advice_id : string) : bool :=
  match selectedAdvice c with
  | Some a => bool_decide (Advice.advice_id a = advice_id)
  | None => false
  end.

Definition deleteAdvice (c : AppState) (advice_id : string) (net : reply unit)
  : M unit :=
  try_catch
    (res ← fetch (DELETE (API_BASE_URL +:+ "/api/advice/" +:+ advice_id)) net;
     if ok res then
       setAdviceList_prev
         (fun prev => filter (fun a => AdviceItem.advice_id a ≠ advice_id) prev);;
       (if views_advice c advice_id then setSelectedAdvice None else skip)
     else skip)
    (fun e => console_error "Failed to delete advice:" e).

(** The effect on [userId]: what its five loaders are answered. *)
Record effect_replies := mkEffectReplies {
  net_profile : reply UserProfile.t;
  net_relationships : reply (option (list Relationship.t));
  net_sessions : reply (option (list Session.t));
  net_advice : reply (option (list AdviceItem.t));
  net_sessions' : reply (option (list Session.t)) }.

Definition userId_effect (c : AppState) (nets : effect_replies) : M unit :=
  (if negb (falsy (userId c)) then
     no_await (loadUserProfile c (net_profile nets));;
     no_await (loadRelationships c (net_relationships nets));;
     no_await (loadSessions c (net_sessions nets));;
     no_await (loadAdviceList c (net_advice nets))
   else skip);;
  no_await (loadSessions c (net_sessions' nets)).

(** The gate in front of the main view: [!userId || !userProfile]. *)
Definition shows_onboarding (s : AppState) : bool :=
  falsy (userId s) || match userProfile s with Some _ => false | None => true end.

(** ** Inline handlers of the main view *)

Definition toggleSidebar (c : AppState) : M unit :=
  setSidebarOpen (negb (sidebarOpen c)).

Definition selectRelationship (rel : Relationship.t) : M unit :=
  setSelectedRelationship (Some rel);;
  setSessionId None;;
  setMessages [];;
  setCurrentView chat;;
  setSidebarOpen false.

Definition newChat : M unit :=
  setMessages [];; setSessionId None;; setCurrentView chat.

Definition signOut : M unit :=
  localStorage_removeItem "luvvtapp_user_id";; setUserId None.

(** [onChange] of the partner select of the advice panel. *)
Definition changeAdvicePartner (c : AppState) (value : string) : M unit :=
  let rel := list_find (fun r => Relationship.named value r = true) (relationships c) in
  setAdvicePartner (snd <$> rel).

(** [onChange] of the situation text area. *)
Definition changeAdviceSituation (value : string) : M unit :=
  setAdviceSituation (JsString.slice0 1000 value).

(** [onKeyPress] of the input: [e.key === 'Enter' && sendMessage()]. *)
Definition keyPress (c : AppState) (key : string) (net : reply ChatReply.t) : M unit :=
  if bool_decide (key = "Enter") then no_await (sendMessage c net) else skip.

(** ** [OnboardingScreen] *)

Definition setOnboardingStep (n : nat) : M unit :=
  fun w => (Normal tt, with_onboarding (fun l => Onboarding.mk n (Onboarding.formData l)) w).
Definition setOnboardingFormData (f : Onboarding.form) : M unit :=
  fun w => (Normal tt, with_onboarding (fun l => Onboarding.mk (Onboarding.step l) f) w).

(** The [assessment] object that [handleSubmit] fills in, property by
    property, and the value it hands to [onComplete]. *)
Definition assessment_props (formData : Onboarding.form) : list (string * json) :=
  let assessment := [] in
  let assessment :=
    if JsString.truthy (Onboarding.personalityType formData)
    then assessment ++ [("personality_type", JStr (Onboarding.personalityType formData))]
    else assessment in
  let assessment :=
    if JsString.truthy (Onboarding.loveLanguage formData)
    then assessment ++ [("love_language", JStr (Onboarding.loveLanguage formData))]
    else assessment in
  let assessment :=
    if JsString.truthy (Onboarding.communicationStyle formData)
    then assessment ++ [("communication_style", JStr (Onboarding.communicationStyle formData))]
    else assessment in
  assessment.

Definition Onboarding_handleSubmit (l : Onboarding.state)
    (onComplete : string -> string -> json -> M unit) : M unit :=
  let formData := Onboarding.formData l in
  let assessment := assessment_props formData in
  no_await
    (onComplete (Onboarding.name formData) (Onboarding.email formData)
       (if bool_decide (0 < length assessment) then JObj assessment else JNull)).

(** ** [AddRelationshipView] *)

Definition setAddRelationshipFormData (f : AddRelationship.form) : M unit :=
  fun w => (Normal tt, with_addRelationshipForm (fun _ => f) w).

Definition AddRelationship_payload (userId : option string)
    (formData : AddRelationship.form) : Json.literal :=
  [("user_id", Json.nullable userId);
   ("relationship_type", Json.str (AddRelationship.type formData));
   ("partner_profile",
     Some (Json.stringify
             [("name", Json.str (AddRelationship.name formData));
              ("personality_type",
                Json.str_or_undefined (AddRelationship.personalityType formData));
              ("love_language",
                Json.str_or_undefined (AddRelationship.loveLanguage formData));
              ("interests",
                if JsString.truthy (AddRelationship.interests formData)
                then Some (Json.strings
                             (JsString.trim <$>
                                JsString.split "," (AddRelationship.interests formData)))
                else None)]))].

Definition AddRelationship_handleSubmit (userId : option string)
    (formData : AddRelationship.form) (onSuccess : M unit) (net : reply unit) : M unit :=
  try_catch
    (response ← fetch (POST (API_BASE_URL +:+ "/api/relationships")
                         (AddRelationship_payload userId formData)) net;
     if ok response then onSuccess else skip)
    (fun error => console_error "Error creating relationship:" error).

(** ** [AddPartnerProfileWizard] *)

Definition setWizardStep (n : nat) : M unit :=
  fun w => (Normal tt,
            with_wizard (fun l => Wizard.mk n (Wizard.saving l) (Wizard.form_ l)) w).
Definition setSaving (b : bool) : M unit :=
  fun w => (Normal tt,
            with_wizard (fun l => Wizard.mk (Wizard.step l) b (Wizard.form_ l)) w).
Definition setWizardForm (f : Wizard.form) : M unit :=
  fun w => (Normal tt,
            with_wizard (fun l => Wizard.mk (Wizard.step l) (Wizard.saving l) f) w).

Definition Wizard_next (l : Wizard.state) : M unit :=
  let form := Wizard.form_ l in
  if bool_decide (Wizard.step l = 1)
     && (negb (JsString.truthy (JsString.trim (Wizard.name form)))
         || negb (JsString.truthy (Wizard.birthday form))
         || negb (JsString.truthy (Wizard.relationship_status form)))
  then skip
  else setWizardStep (Nat.min (Wizard.step l + 1) Wizard.total).

Definition Wizard_prev (l : Wizard.state) : M unit :=
  setWizardStep (Nat.max (Wizard.step l - 1) 1).

(** [s.split(',').map(s => s.trim()).filter(Boolean)] *)
Definition comma_list (s : string) : list string :=
  filter (fun x => JsString.truthy x = true) (JsString.trim <$> JsString.split "," s).

Definition Wizard_payload (userId : option string) (form : Wizard.form) : Json.literal :=
  let relationship_type := Wizard.relationship_status form in
  let partner_profile :=
    Json.stringify
      [("name", Json.str (Wizard.name form));
       ("love_language", Json.str_or_undefined (Wizard.love_language form));
       ("interests",
         if JsString.truthy (Wizard.hobbies form)
         then Some (Json.strings (comma_list (Wizard.hobbies form))) else None);
       ("preferences",
         Some (Json.stringify
                 [("birthday", Json.str (Wizard.birthday form));
                  ("anniversary_dates",
                    Some (if JsString.truthy (Wizard.anniversary_dates form)
                          then Json.strings (comma_list (Wizard.anniversary_dates form))
                          else JArr []));
                  ("zodiac_sign", Json.str_or_undefined (Wizard.zodiac_sign form));
                  ("music_preferences",
                    Json.str_or_undefined (Wizard.music_preferences form));
                  ("religious_beliefs",
                    Json.str_or_undefined (Wizard.religious_beliefs form));
                  ("ideal_vacations", Json.str_or_undefined (Wizard.ideal_vacations form));
                  ("fashion_preferences",
                    Json.str_or_undefined (Wizard.fashion_preferences form));
                  ("dietary_restrictions",
                    Json.str_or_undefined (Wizard.dietary_restrictions form))]))] in
  [("user_id", Json.nullable userId);
   ("relationship_type", Json.str relationship_type);
   ("partner_profile", Some partner_profile)].

(** [submit]: a [try] with a [finally] and no [catch]. *)
Definition Wizard_submit (userId : option string) (l : Wizard.state)
    (onSaved : M unit) (net : reply unit) : M unit :=
  try_finally
    (setSaving true;;
     res ← fetch (POST (API_BASE_URL +:+ "/api/relationships")
                    (Wizard_payload userId (Wizard.form_ l))) net;
     if ok res then onSaved else skip)
    (setSaving false).

(** ** Events, renders and runs *)

#[global] Instance view_eq_dec : EqDecision view.
Proof. solve_decision. Defined.

(** An event carries the item it is raised on (the relationship, session or
    advice of the clicked row, the text typed or the option chosen) and the
    replies its requests get. The model does not restrict events to the rows
    and buttons that the current render offers: it allows more events than the
    page does. *)
Inductive event :=
(* sidebar *)
| EvToggleSidebar
| EvAddPartner
| EvSelectRelationship (rel : Relationship.t)
| EvOpenSession (s : Session.t) (net : reply History.t)
| EvOpenAdvice (item : AdviceItem.t) (net : reply Advice.t)
| EvDeleteAdvice (advice_id : string) (net : reply unit)
| EvNewChat
| EvSettings
| EvSignOut
(* advice panel *)
| EvAdviceOpen
| EvAdviceTopic (value : string)
| EvAdvicePartner (value : string)
| EvAdviceSituation (value : string)
| EvSubmitAdvice (net : reply Advice.t) (netList : reply (option (list AdviceItem.t)))
| EvAdviceCancel
| EvAdviceClose
(* chat *)
| EvSuggestion (question : string)
| EvInput (value : string)
| EvKeyPress (key : string) (net : reply ChatReply.t)
| EvSend (net : reply ChatReply.t)
(* settings *)
| EvSettingsBack
| EvSettingsAddPartner
(* onboarding *)
| EvOnboardingField (k : Onboarding.field) (value : string)
| EvOnboardingContinue
| EvOnboardingBack
| EvOnboardingSubmit (now : N) (net : reply unit) (netProfile : reply UserProfile.t)
(* add relationship *)
| EvAddRelationshipField (k : AddRelationship.field) (value : string)
| EvAddRelationshipSubmit (net : reply unit)
    (netList : reply (option (list Relationship.t)))
| EvAddRelationshipBack
(* partner wizard *)
| EvWizardField (k : Wizard.field) (value : string)
| EvWizardNext
| EvWizardPrev
| EvWizardSubmit (net : reply unit) (netList : reply (option (list Relationship.t)))
| EvWizardCancel.

(** The handler an event calls, closed over the render [w0] it was created in,
    with the props that [App] passes to its children. *)
Definition handler (ev : event) (w0 : World) : M unit :=
  let c := ui w0 in
  match ev with
  | EvToggleSidebar => toggleSidebar c
  | EvAddPartner => setCurrentView addPartner
  | EvSelectRelationship rel => selectRelationship rel
  | EvOpenSession s net => no_await (openSession s net)
  | EvOpenAdvice item net => no_await (openAdvice item net)
  | EvDeleteAdvice advice_id net => no_await (deleteAdvice c advice_id net)
  | EvNewChat => newChat
  | EvSettings => setCurrentView settings
  | EvSignOut => signOut
  | EvAdviceOpen => setAdviceOpen true
  | EvAdviceTopic value => setAdviceTopic value
  | EvAdvicePartner value => changeAdvicePartner c value
  | EvAdviceSituation value => changeAdviceSituation value
  | EvSubmitAdvice net netList => no_await (submitAdvice c net netList)
  | EvAdviceCancel => setAdviceOpen false
  | EvAdviceClose => setSelectedAdvice None
  | EvSuggestion question => setInputMessage question
  | EvInput value => setInputMessage value
  | EvKeyPress key net => keyPress c key net
  | EvSend net => no_await (sendMessage c net)
  | EvSettingsBack => setCurrentView chat
  | EvSettingsAddPartner => setCurrentView addPartner
  | EvOnboardingField k value =>
      setOnboardingFormData
        (Onboarding.with_field k value (Onboarding.formData (onboarding w0)))
  | EvOnboardingContinue => setOnboardingStep 2
  | EvOnboardingBack => setOnboardingStep 1
  | EvOnboardingSubmit now net netProfile =>
      Onboarding_handleSubmit (onboarding w0) (createUser c now net netProfile)
  | EvAddRelationshipField k value =>
      setAddRelationshipFormData
        (AddRelationship.with_field k value (addRelationshipForm w0))
  | EvAddRelationshipSubmit net netList =>
      no_await
        (AddRelationship_handleSubmit (userId c) (addRelationshipForm w0)
           (no_await (loadRelationships c netList);; setCurrentView chat) net)
  | EvAddRelationshipBack => setCurrentView chat
  | EvWizardField k value =>
      setWizardForm (Wizard.with_field k value (Wizard.form_ (wizard w0)))
  | EvWizardNext => Wizard_next (wizard w0)
  | EvWizardPrev => Wizard_prev (wizard w0)
  | EvWizardSubmit net netList =>
      no_await
        (Wizard_submit (userId c) (wizard w0)
           (no_await (loadRelationships c netList);; setCurrentView settings) net)
  | EvWizardCancel => setCurrentView settings
  end.

(** The first state of [App]: [userId] starts from the stored identifier. *)
Definition initial_state (stored : option string) : AppState :=
  mkApp chat (if falsy stored then None else stored) None [] None [] false
    "Communication" "" None false [] None [] "" None false true.

(** A render of [App] evaluates the argument of [useState] again. *)
Definition render : M unit :=
  _ ← localStorage_getItem "luvvtapp_user_id"; skip.

(** A child that is not rendered loses its cells. *)
Definition unmount (w : World) : World :=
  let main := negb (shows_onboarding (ui w)) in
  mkWorld (ui w)
    (if main then Onboarding.initial else onboarding w)
    (if main && bool_decide (currentView (ui w) = addRelationship)
     then addRelationshipForm w else AddRelationship.initial)
    (if main && bool_decide (currentView (ui w) = addPartner)
     then wizard w else Wizard.initial)
    (localStorage w) (storage_ops w) (requests w) (order w) (console w).

(** After a handler: the effect on [userId] when that cell changed, then the
    render. [nets] answers the loaders of the effect. *)
Definition commit (before : option string) (nets : effect_replies) (w : World) : World :=
  let w1 := if bool_decide (userId (ui w) = before) then w
            else exec (userId_effect (ui w) nets) w in
  unmount (exec render w1).

Definition dispatch (ev : event) (nets : effect_replies) (w : World) : World :=
  commit (userId (ui w)) nets (exec (handler ev w) w).

(** Mounting [App] in a browser whose local storage is [store]. *)
Definition mount (store : gmap string string) (nets : effect_replies) : World :=
  let w0 := mkWorld (initial_state None) Onboarding.initial AddRelationship.initial
              Wizard.initial store [] [] [] [] in
  let stored := store !! "luvvtapp_user_id" in
  let w1 := with_ui (fun _ => initial_state stored) (exec render w0) in
  unmount (exec (userId_effect (ui w1) nets) w1).

Fixpoint run (evs : list (event * effect_replies)) (w : World) : World :=
  match evs with
  | [] => w
  | (ev, nets) :: rest => run rest (dispatch ev nets w)
  end.

(** ** The session lists of the sidebar *)

(** [sessions.filter(s => (s.context_type ?? 'general') === 'general')] *)
Definition general_sessions (s : AppState) : list Session.t :=
  filter (fun x => default "general" (Session.context_type x) = "general") (sessions s).

(** [sessions.filter(s => s.context_type === 'partner')] *)
Definition partner_sessions (s : AppState) : list Session.t :=
  filter (fun x => Session.context_type x = Some "partner") (sessions s).

(** * Vocabulary of the properties *)

(** The data of a successful response, if the reply is one. *)
Definition successful {A} (net : reply A) : option A :=
  match net with Resolved (Success data) => Some data | _ => None end.

(** The fields that the six-field contract of §6 names. *)
Definition chat_fields : list string :=
  ["user_id"; "message"; "relationship_type"; "partner_profile";
   "self_assessment"; "session_id"].

(** The partner profile a history response carries: a property that is
    missing, [null] or otherwise falsy carries none. *)
Definition carried_profile (data : History.t) : option json :=
  match History.partner_profile data with
  | Some pp => if Json.truthy pp then Some pp else None
  | None => None
  end.

(** The relationship type of a history response, 'general' when absent
    (an empty type counts as absent). *)
Definition type_or_general (data : History.t) : string :=
  match History.relationship_type data with
  | Some "" | None => "general"
  | Some t => t
  end.

(** The advice situation text fits the 1000 characters of the text area. *)
Definition situation_bounded (s : AppState) : Prop :=
  String.length (adviceSituation s) <= 1000.

Definition keeps_situation_bounded (w w' : World) : Prop :=
  situation_bounded (ui w) -> situation_bounded (ui w').

(** A value of the form that [createUser] generates: [user_<Date.now()>]. *)
Definition generated_id (v : string) : Prop :=
  exists now : N, v = "user_" +:+ pretty now.

(** A call on [localStorage] that uses the application key, and writes a
    generated identifier if it writes. *)
Definition disciplined (o : storage_op) : Prop :=
  op_key o = "luvvtapp_user_id"
  /\ match o with setItem _ v => generated_id v | _ => True end.

(** What a step of the client may do to local storage. *)
Definition storage_step (w w' : World) : Prop :=
  exists ops,
    storage_ops w' = storage_ops w ++ ops
    /\ Forall disciplined ops
    /\ forall k, k <> "luvvtapp_user_id" -> localStorage w' !! k = localStorage w !! k.

(** The loaders never touch the storage. *)
Definition storage_untouched (w w' : World) : Prop :=
  storage_ops w' = storage_ops w /\ localStorage w' = localStorage w.

(** The calls of the backend that sit in a [try] with a [catch]: every one
    but the submit of the partner wizard. *)
Inductive call :=
| CallOpenSession (s : Session.t) (net : reply History.t)
| CallLoadUserProfile (net : reply UserProfile.t)
| CallLoadRelationships (net : reply (option (list Relationship.t)))
| CallLoadAdviceList (net : reply (option (list AdviceItem.t)))
| CallLoadSessions (net : reply (option (list Session.t)))
| CallCreateUser (now : N) (name email : string) (assessment : json)
    (net : reply unit) (netProfile : reply UserProfile.t)
| CallSendMessage (net : reply ChatReply.t)
| CallSubmitAdvice (net : reply Advice.t) (netList : reply (option (list AdviceItem.t)))
| CallOpenAdvice (item : AdviceItem.t) (net : reply Advice.t)
| CallDeleteAdvice (advice_id : string) (net : reply unit)
| CallAddRelationship (formData : AddRelationship.form) (net : reply unit)
    (netList : reply (option (list Relationship.t))).

Definition perform (c : AppState) (k : call) : M unit :=
  match k with
  | CallOpenSession s net => openSession s net
  | CallLoadUserProfile net => loadUserProfile c net
  | CallLoadRelationships net => loadRelationships c net
  | CallLoadAdviceList net => loadAdviceList c net
  | CallLoadSessions net => loadSessions c net
  | CallCreateUser now name email assessment net netProfile =>
      createUser c now net netProfile name email assessment
  | CallSendMessage net => sendMessage c net
  | CallSubmitAdvice net netList => submitAdvice c net netList
  | CallOpenAdvice item net => openAdvice item net
  | CallDeleteAdvice advice_id net => deleteAdvice c advice_id net
  | CallAddRelationship formData net netList =>
      AddRelationship_handleSubmit (userId c) formData
        (no_await (loadRelationships c netList);; setCurrentView chat) net
  end.

Definition rejection {A} (net : reply A) : option string :=
  match net with Rejected e => Some e | Resolved _ => None end.

(** Whether the request of the call got no successful response, and the
    error it was rejected with, if it was. *)
Definition call_failed (k : call) : bool :=
  match k with
  | CallOpenSession _ net => failed net
  | CallLoadUserProfile net => failed net
  | CallLoadRelationships net => failed net
  | CallLoadAdviceList net => failed net
  | CallLoadSessions net => failed net
  | CallCreateUser _ _ _ _ net _ => failed net
  | CallSendMessage net => failed net
  | CallSubmitAdvice net _ => failed net
  | CallOpenAdvice _ net => failed net
  | CallDeleteAdvice _ net => failed net
  | CallAddRelationship _ net _ => failed net
  end.

Definition call_rejection (k : call) : option string :=
  match k with
  | CallOpenSession _ net => rejection net
  | CallLoadUserProfile net => rejection net
  | CallLoadRelationships net => rejection net
  | CallLoadAdviceList net => rejection net
  | CallLoadSessions net => rejection net
  | CallCreateUser _ _ _ _ net _ => rejection net
  | CallSendMessage net => rejection net
  | CallSubmitAdvice net _ => rejection net
  | CallOpenAdvice _ net => rejection net
  | CallDeleteAdvice _ net => rejection net
  | CallAddRelationship _ net _ => rejection net
  end.

(** The label each call logs a caught error under. *)
Definition call_label (k : call) : string :=
  match k with
  | CallOpenSession _ _ => "Error opening session:"
  | CallLoadUserProfile _ => "Error loading profile:"
  | CallLoadRelationships _ => "Error loading relationships:"
  | CallLoadAdviceList _ => "Error loading advice list:"
  | CallLoadSessions _ => "Error loading sessions:"
  | CallCreateUser _ _ _ _ _ _ => "Error creating user:"
  | CallSendMessage _ => "Error sending message:"
  | CallSubmitAdvice _ _ => "Advice request failed:"
  | CallOpenAdvice _ _ => "Failed to open advice:"
  | CallDeleteAdvice _ _ => "Failed to delete advice:"
  | CallAddRelationship _ _ _ => "Error creating relationship:"
  end.

(** The state cells after a failed call: those before it, but for what
    [sendMessage] and [submitAdvice] do before and after their request. *)
Definition after_failure (k : call) (s : AppState) : AppState :=
  match k with
  | CallSendMessage _ =>
      upd_loading false
        (upd_inputMessage ""
           (upd_messages (messages s ++ [Message.mk "user" (inputMessage s)]) s))
  | CallSubmitAdvice _ _ => upd_adviceLoading false s
  | _ => s
  end.

(** Every run of [m] relates the world it starts in to the one it ends in. *)
Definition preserves (R : World -> World -> Prop) {A} (m : M A) : Prop :=
  forall w, R w (m w).2.

(** ** Concrete worlds used in the examples below *)

Module Sample.
Definition alice : UserProfile.t :=
  UserProfile.mk "Alice" "alice@example.org" (Some JNull).
Definition sam : Relationship.t :=
  Relationship.mk "romantic" (Some (JObj [("name", JStr "Sam")])).
Definition tips : list AdviceItem.t :=
  [AdviceItem.mk "a1" "Trust" "Be open"; AdviceItem.mk "a2" "Romance" "Plan a date";
   AdviceItem.mk "a1" "Family" "Call home"; AdviceItem.mk "a3" "Trust" "Listen"].
(** A signed-in user in the general chat who has typed "hi". *)
Definition typing : AppState :=
  mkApp chat (Some "user_17") (Some alice) [sam] None
    [Message.mk "user" "hello"; Message.mk "assistant" "welcome"]
    false "Communication" "" None false tips
    (Some (Advice.mk "a1" "Trust" "Be open with each other" "2024-05-01"))
    [] "hi" (Some "s9") false true.
Definition world (s : AppState) : World :=
  mkWorld s Onboarding.initial AddRelationship.initial Wizard.initial
    {["luvvtapp_user_id" := "user_17"]} [] [] [] [].
Definition general_chat : World := world typing.
(** The same user with the relationship with Sam selected. *)
Definition partner_chat : World :=
  world (upd_selectedRelationship (Some sam) typing).
Definition hello : reply ChatReply.t :=
  Resolved (Success (ChatReply.mk "s10" "hello!")).
(** Onboarding, nobody signed in. *)
Definition fresh : World :=
  mkWorld (initial_state None) Onboarding.initial AddRelationship.initial
    Wizard.initial ∅ [] [] [] [].
End Sample.

(** ** Further concrete values *)

(** The five loaders of the effect all rejected. *)
Definition offline : effect_replies :=
  mkEffectReplies (Rejected "offline") (Rejected "offline") (Rejected "offline")
    (Rejected "offline") (Rejected "offline").

(** The step of the partner wizard is one of its three steps. *)
Definition wizard_step_ok (w : World) : Prop :=
  1 <= Wizard.step (wizard w) <= Wizard.total.

(** The local cells of the wizard are left alone. *)
Definition wizard_untouched (w w' : World) : Prop := wizard w' = wizard w.

(** The mandatory fields of the first step of the wizard are filled in. *)
Definition wizard_step1_complete (form : Wizard.form) : Prop :=
  JsString.trim (Wizard.name form) <> ""
  /\ Wizard.birthday form <> ""
  /\ Wizard.relationship_status form <> "".

(** A string that does not start with white space. *)
Definition no_leading_space (s : string) : Prop :=
  match s with
  | String a _ => JsString.is_white_space a = false
  | EmptyString => True
  end.

(** What goes out for an optional text field: nothing when it is empty. *)
Definition sent_if_filled (field : string) : option json :=
  match field with
  | EmptyString => None
  | _ => Some (JStr field)
  end.

(** The user and the storage are left alone. *)
Definition user_untouched (w w' : World) : Prop :=
  userId (ui w') = userId (ui w) /\ localStorage w' = localStorage w.

(** The current user is the one that a reload of the page would find in
    local storage. *)
Definition user_in_sync (w : World) : Prop :=
  userId (ui w) = userId (initial_state (localStorage w !! "luvvtapp_user_id")).

(** The view of [AddRelationshipView] is not the one shown. *)
Definition keeps_off_addRelationship (w w' : World) : Prop :=
  currentView (ui w) <> addRelationship -> currentView (ui w') <> addRelationship.

(** * Properties *)

(** Unfolds a handler and the monad down to the world it computes. *)
Create HintDb handlers.
Create HintDb monad.
#[global] Hint Unfold
  openSession loadUserProfile loadRelationships loadAdviceList loadSessions
  createUser sendMessage submitAdvice openAdvice deleteAdvice userId_effect
  toggleSidebar selectRelationship newChat signOut changeAdvicePartner
  changeAdviceSituation keyPress render
  Onboarding_handleSubmit AddRelationship_handleSubmit
  Wizard_next Wizard_prev Wizard_submit : handlers.
#[global] Hint Unfold
  setCurrentView setUserId setUserProfile setRelationships
  setSelectedRelationship setMessages setMessages_prev setAdviceOpen
  setAdviceTopic setAdviceSituation setAdvicePartner setAdviceLoading
  setAdviceList setAdviceList_prev setSelectedAdvice setSessions
  setInputMessage setSessionId setLoading setSidebarOpen : handlers.
#[global] Hint Unfold
  setOnboardingStep setOnboardingFormData setAddRelationshipFormData
  setWizardStep setSaving setWizardForm : monad.
#[global] Hint Unfold
  exec outcome no_await try_finally try_catch skip mbind M_bind mret M_ret
  fetch console_error modify localStorage_getItem localStorage_setItem
  localStorage_removeItem : monad.

Ltac run_handler := autounfold with handlers monad; cbn.

(** ** Sanity checks of the embedding *)

Example stringify_drops_undefined :
  Json.stringify [("a", Json.str "x"); ("b", None); ("c", Some JNull)]
  = JObj [("a", JStr "x"); ("c", JNull)].
Proof. reflexivity. Qed.

Example split_example :
  JsString.split "," "a, b,,c" = ["a"; " b"; ""; "c"].
Proof. reflexivity. Qed.

Example trim_example : JsString.trim "  hi there " = "hi there".
Proof. reflexivity. Qed.

Example sendMessage_ok_sample :
  messages (ui (exec (sendMessage Sample.typing
                        (Resolved (Success (ChatReply.mk "s9" "hello!"))))
                  (Sample.world Sample.typing)))
  = [Message.mk "user" "hello"; Message.mk "assistant" "welcome";
     Message.mk "user" "hi"; Message.mk "assistant" "hello!"].
Proof. reflexivity. Qed.

Example sendMessage_body_sample :
  Request.body <$> requests (exec (sendMessage Sample.typing (Rejected "down"))
                                   (Sample.world Sample.typing))
  = [Some (JObj [("user_id", JStr "user_17"); ("message", JStr "hi");
                 ("relationship_type", JStr "general");
                 ("self_assessment", JNull); ("session_id", JStr "s9")])].
Proof. reflexivity. Qed.

Example createUser_sample :
  let w := exec (createUser (initial_state None) 1700000000000 (Resolved (Success tt))
                   (Resolved (Failure 404)) "Al" "al@example.org" JNull) Sample.fresh in
  userId (ui w) = Some "user_1700000000000"
  /\ localStorage w !! "luvvtapp_user_id" = Some "user_1700000000000"
  /\ Request.url <$> requests w
     = ["http://localhost:8000/api/users"; "http://localhost:8000/api/users/null"].
Proof. vm_compute. auto. Qed.

(** ** Reasoning about handlers *)

Lemma failed_successful {A} (net : reply A) :
  failed net = true <-> successful net = None.
Proof. destruct net as [e|[data|st]]; simpl; split; congruence. Qed.

Lemma successful_ok {A} (net : reply A) (data : A) :
  successful net = Some data <-> net = Resolved (Success data).
Proof. destruct net as [e|[d|st]]; simpl; split; congruence. Qed.

Lemma app_cons_snoc {A} (l : list A) (x y : A) (k : list A) :
  l ++ x :: y :: k = (l ++ [x]) ++ y :: k.
Proof. by rewrite <- app_assoc. Qed.

Section SendMessage.

Variable w : World.
Variable net : reply ChatReply.t.
Let c := ui w.
Let userMsg := Message.mk "user" (inputMessage c).
Let w' := exec (sendMessage c net) w.

Hypothesis non_blank : JsString.trim (inputMessage c) <> "".

Lemma sendMessage_unfold :
  w' = exec (setMessages (messages c ++ [userMsg]);;
             setInputMessage "";;
             setLoading true;;
             try_finally
               (try_catch
                  (response ← fetch (POST (API_BASE_URL +:+ "/api/chat")
                                       (chat_payload c)) net;
                   match response with
                   | Success data =>
                       setSessionId (Some (ChatReply.session_id data));;
                       setMessages_prev
                         (fun prev => prev ++ [Message.mk "assistant"
                                                 (ChatReply.response data)])
                   | Failure _ => skip
                   end)
                  (fun error => console_error "Error sending message:" error))
               (setLoading false)) w.
Proof.
  unfold w', sendMessage. fold c.
  destruct (JsString.trim (inputMessage c)) eqn:E; [congruence | reflexivity].
Qed.

Lemma sendMessage_request :
  requests w' = requests w ++ [POST (API_BASE_URL +:+ "/api/chat") (chat_payload c)].
Proof.
  rewrite sendMessage_unfold.
  destruct net as [e|[data|st]]; reflexivity.
Qed.

(** C2. For a non-blank input, [sendMessage] appends the user's message
    (role 'user', content the input) before the request to /api/chat is
    sent: the call of [setMessages] with the list and that message comes
    first in the order of calls, the call of [fetch] comes after it, and the
    call that appends the assistant message, if there is one, comes after
    the call of [fetch]. When the call is over the list holds, after the
    user's message, an assistant message with the content of the response
    exactly when the response was successful, and nothing more otherwise. *)
Theorem sendMessage_appends :
  requests w' = requests w ++ [POST (API_BASE_URL +:+ "/api/chat") (chat_payload c)]
  /\ order w'
     = order w
       ++ [Queued (upd_messages (messages c ++ [userMsg]));
           Queued (upd_inputMessage "");
           Queued (upd_loading true);
           Fetched (POST (API_BASE_URL +:+ "/api/chat") (chat_payload c))]
       ++ match successful net with
          | Some data =>
              [Queued (upd_sessionId (Some (ChatReply.session_id data)));
               Queued (fun s =>
                         upd_messages
                           (messages s
                            ++ [Message.mk "assistant" (ChatReply.response data)]) s);
               Queued (upd_loading false)]
          | None => [Queued (upd_loading false)]
          end
  /\ messages (ui w')
     = messages c ++ userMsg ::
         match successful net with
         | Some data => [Message.mk "assistant" (ChatReply.response data)]
         | None => []
         end.
Proof.
  rewrite sendMessage_unfold.
  split; [destruct net as [e|[data|st]]; reflexivity |].
  split.
  - destruct net as [e|[data|st]]; cbn [successful app];
      rewrite !app_cons_snoc; reflexivity.
  - destruct net as [e|[data|st]]; cbn [successful];
      rewrite ?app_cons_snoc; reflexivity.
Qed.

End SendMessage.

Lemma sendMessage_appends_witness :
  JsString.trim (inputMessage (ui Sample.general_chat)) <> ""
  /\ messages (ui (exec (sendMessage (ui Sample.general_chat) Sample.hello)
                     Sample.general_chat))
     = messages (ui Sample.general_chat)
       ++ [Message.mk "user" "hi"; Message.mk "assistant" "hello!"].
Proof.
  split; [discriminate |].
  apply (sendMessage_appends Sample.general_chat Sample.hello).
  discriminate.
Defined.

(** ** The body of a chat request *)

Section ChatRequest.

Variable w : World.
Variable net : reply ChatReply.t.
Let c := ui w.
Let w' := exec (sendMessage c net) w.
Let body := Json.stringify (chat_payload c).

Hypothesis non_blank : JsString.trim (inputMessage c) <> "".

(** C8, as amended. The body of the request that [sendMessage] posts to
    /api/chat is a JSON object with the fields user_id, message,
    relationship_type and session_id, with partner_profile only when a
    relationship with a partner profile is selected and self_assessment
    only when the user's profile has that property, and with no other
    field; relationship_type is the type of the selected relationship
    ('general' if that type is empty) and 'general' when none is selected;
    after a successful response the session id of the client is the one
    returned. *)
Theorem chat_request_fields :
  requests w'
  = requests w ++ [Request.mk "POST" "http://localhost:8000/api/chat"
                     [("Content-Type", "application/json")] (Some body)]
  /\ Json.keys body
     = ["user_id"; "message"; "relationship_type"]
       ++ match selectedRelationship c ≫= Relationship.partner_profile with
          | Some _ => ["partner_profile"] | None => [] end
       ++ match userProfile c ≫= UserProfile.self_assessment with
          | Some _ => ["self_assessment"] | None => [] end
       ++ ["session_id"]
  /\ Json.keys body ⊆ chat_fields
  /\ Json.get "user_id" body
     = Some (match userId c with Some u => JStr u | None => JNull end)
  /\ Json.get "message" body = Some (JStr (inputMessage c))
  /\ Json.get "relationship_type" body
     = Some (JStr match selectedRelationship c with
                  | Some r => if JsString.truthy (Relationship.relationship_type r)
                              then Relationship.relationship_type r else "general"
                  | None => "general"
                  end)
  /\ Json.get "partner_profile" body
     = selectedRelationship c ≫= Relationship.partner_profile
  /\ Json.get "self_assessment" body = userProfile c ≫= UserProfile.self_assessment
  /\ Json.get "session_id" body
     = Some (match sessionId c with Some i => JStr i | None => JNull end)
  /\ (forall data, successful net = Some data ->
        sessionId (ui w') = Some (ChatReply.session_id data)).
Proof.
  split.
  { apply (sendMessage_request w net non_blank). }
  assert (Hkeys : Json.keys body
     = ["user_id"; "message"; "relationship_type"]
       ++ match selectedRelationship c ≫= Relationship.partner_profile with
          | Some _ => ["partner_profile"] | None => [] end
       ++ match userProfile c ≫= UserProfile.self_assessment with
          | Some _ => ["self_assessment"] | None => [] end
       ++ ["session_id"]).
  { unfold body, chat_payload, Json.stringify, Json.stringify_props.
    destruct (selectedRelationship c ≫= Relationship.partner_profile);
      destruct (userProfile c ≫= UserProfile.self_assessment); reflexivity. }
  split; [exact Hkeys |].
  split.
  { rewrite Hkeys. unfold chat_fields.
    destruct (selectedRelationship c ≫= Relationship.partner_profile);
      destruct (userProfile c ≫= UserProfile.self_assessment);
      intros k; rewrite !list_elem_of_In; simpl; tauto. }
  unfold body, chat_payload, Json.stringify, Json.stringify_props.
  repeat split;
    try (destruct (selectedRelationship c) as [[rt [pp|]]|];
         destruct (userProfile c) as [[n e [sa|]]|]; reflexivity).
  intros data Hdata. apply successful_ok in Hdata.
  unfold w', c. rewrite (sendMessage_unfold w net non_blank), Hdata. reflexivity.
Qed.

End ChatRequest.

Lemma chat_request_fields_witness :
  JsString.trim (inputMessage (ui Sample.partner_chat)) <> ""
  /\ Json.keys (Json.stringify (chat_payload (ui Sample.partner_chat))) = chat_fields
  /\ sessionId (ui (exec (sendMessage (ui Sample.partner_chat) Sample.hello)
                      Sample.partner_chat)) = Some "s10".
Proof.
  split; [discriminate |].
  pose proof (chat_request_fields Sample.partner_chat Sample.hello) as H.
  destruct H as (_ & Hk & _ & _ & _ & _ & _ & _ & _ & Hs); [discriminate |].
  split; [exact Hk | exact (Hs _ eq_refl)].
Defined.

(** C8 as stated fails: in the general chat (no relationship selected) the
    body that leaves has no partner_profile field. *)
Lemma chat_body_lacks_partner_profile :
  exists body,
    Request.body <$> requests (exec (sendMessage (ui Sample.general_chat) Sample.hello)
                                 Sample.general_chat)
    = [Some body]
    /\ Json.keys body
       = ["user_id"; "message"; "relationship_type"; "self_assessment"; "session_id"]
    /\ ~ (forall k, k ∈ chat_fields -> k ∈ Json.keys body).
Proof.
  eexists. split; [reflexivity |]. split; [reflexivity |].
  intros H. specialize (H "partner_profile").
  assert (Hin : "partner_profile" ∈ chat_fields).
  { apply list_elem_of_In. simpl. tauto. }
  apply H in Hin. apply list_elem_of_In in Hin. simpl in Hin.
  intuition discriminate.
Qed.

(** ** Opening a session *)

Lemma map_message_id (l : list Message.t) :
  (fun m => Message.mk (Message.role m) (Message.content m)) <$> l = l.
Proof. induction l as [|[r k] l IH]; [reflexivity |]. by rewrite fmap_cons, IH. Qed.

(** C5. After [openSession] got a successful history response: when the
    response carries no partner_profile the selected relationship is null,
    when it carries one the selected relationship is that profile with the
    relationship_type of the response ('general' when absent); the messages
    are those of the response (none when it has no list), the session id is
    that of the opened session and the chat view is shown. *)
Theorem openSession_success (w : World) (s : Session.t) (data : History.t) :
  let w' := exec (openSession s (Resolved (Success data))) w in
  selectedRelationship (ui w')
  = match carried_profile data with
    | None => None
    | Some pp => Some (Relationship.mk (type_or_general data) (Some pp))
    end
  /\ messages (ui w') = default [] (History.messages data)
  /\ sessionId (ui w') = Some (Session.session_id s)
  /\ currentView (ui w') = chat
  /\ sidebarOpen (ui w') = false.
Proof.
  destruct data as [ms pp rt]. unfold carried_profile, type_or_general, openSession.
  run_handler.
  destruct pp as [pp|]; [destruct (Json.truthy pp) |]; run_handler;
    rewrite map_message_id; repeat split; try reflexivity.
  destruct rt as [[|a t]|]; reflexivity.
Qed.

Example openSession_general_sample :
  selectedRelationship
    (ui (exec (openSession (Session.mk "s1" (Some "general") None None "2024-05-01")
                 (Resolved (Success (History.mk (Some [Message.mk "user" "hey"])
                                       (Some JNull) None))))
           Sample.partner_chat))
  = None.
Proof. reflexivity. Qed.

(** ** Deleting an advice *)

Section DeleteAdvice.

Variable w : World.
Variable advice_id : string.
Let c := ui w.
Let w' := exec (deleteAdvice c advice_id (Resolved (Success tt))) w.

Lemma deleteAdvice_success_ui :
  ui w' = (if views_advice c advice_id then upd_selectedAdvice None else id)
            (upd_adviceList
               (filter (fun a => AdviceItem.advice_id a ≠ advice_id) (adviceList c)) c).
Proof.
  unfold w', deleteAdvice. run_handler.
  destruct (views_advice c advice_id); reflexivity.
Qed.

(** C6. A successful [deleteAdvice] removes from the advice list exactly
    the entries with the given advice_id, and the advice in view becomes
    null if and only if its id is the deleted one (it is left as it was
    otherwise). *)
Theorem deleteAdvice_success :
  (forall a, a ∈ adviceList (ui w')
             <-> a ∈ adviceList c /\ AdviceItem.advice_id a <> advice_id)
  /\ (forall a, selectedAdvice c = Some a ->
        (selectedAdvice (ui w') = None <-> Advice.advice_id a = advice_id)
        /\ (Advice.advice_id a <> advice_id -> selectedAdvice (ui w') = Some a))
  /\ (selectedAdvice c = None -> selectedAdvice (ui w') = None).
Proof.
  rewrite deleteAdvice_success_ui. unfold views_advice.
  split; [| split].
  - intros a. destruct (selectedAdvice c) as [v|]; [case_bool_decide |];
      simpl; rewrite list_elem_of_filter; tauto.
  - intros a Ha. rewrite Ha. case_bool_decide; simpl.
    + split; [tauto | congruence].
    + rewrite Ha. split; [split; [discriminate | congruence] | reflexivity].
  - intros Hn. rewrite Hn. simpl. exact Hn.
Qed.

(** C9. A successful [deleteAdvice] keeps every entry whose advice_id is
    another one, as often as it occurred and in the same order: the list
    afterwards is the list before without the entries of the deleted id.
    The advice in view is untouched unless its id is the deleted one, and
    no other state cell changes. *)
Theorem deleteAdvice_frame :
  adviceList (ui w')
  = filter (fun a => AdviceItem.advice_id a ≠ advice_id) (adviceList c)
  /\ adviceList (ui w') `sublist_of` adviceList c
  /\ (~ (exists a, selectedAdvice c = Some a /\ Advice.advice_id a = advice_id) ->
      selectedAdvice (ui w') = selectedAdvice c)
  /\ ui w' = upd_selectedAdvice (selectedAdvice (ui w'))
               (upd_adviceList (adviceList (ui w')) c).
Proof.
  rewrite deleteAdvice_success_ui. unfold views_advice.
  destruct (selectedAdvice c) as [v|] eqn:Hv; [case_bool_decide |]; simpl;
    (split; [reflexivity |]); (split; [apply sublist_filter |]);
    (split; [| reflexivity]); intros Hne.
  - destruct Hne. eauto.
  - rewrite Hv. reflexivity.
  - rewrite Hv. reflexivity.
Qed.

End DeleteAdvice.

Example deleteAdvice_sample :
  let w' := exec (deleteAdvice Sample.typing "a1" (Resolved (Success tt)))
              Sample.general_chat in
  adviceList (ui w')
  = [AdviceItem.mk "a2" "Romance" "Plan a date"; AdviceItem.mk "a3" "Trust" "Listen"]
  /\ selectedAdvice (ui w') = None.
Proof. split; reflexivity. Qed.

Lemma deleteAdvice_success_witness :
  selectedAdvice (ui Sample.general_chat)
  = Some (Advice.mk "a1" "Trust" "Be open with each other" "2024-05-01")
  /\ selectedAdvice
       (ui (exec (deleteAdvice (ui Sample.general_chat) "a1" (Resolved (Success tt)))
              Sample.general_chat)) = None.
Proof.
  split; [reflexivity |].
  destruct (deleteAdvice_success Sample.general_chat "a1") as (_ & H & _).
  apply (H (Advice.mk "a1" "Trust" "Be open with each other" "2024-05-01"));
    reflexivity.
Defined.

Lemma deleteAdvice_frame_witness :
  ~ (exists a, selectedAdvice (ui Sample.general_chat) = Some a
               /\ Advice.advice_id a = "a2")
  /\ selectedAdvice
       (ui (exec (deleteAdvice (ui Sample.general_chat) "a2" (Resolved (Success tt)))
              Sample.general_chat))
     = selectedAdvice (ui Sample.general_chat).
Proof.
  assert (H : ~ (exists a, selectedAdvice (ui Sample.general_chat) = Some a
                           /\ Advice.advice_id a = "a2")).
  { intros (a & Ha & Hid). injection Ha as <-. discriminate Hid. }
  split; [exact H |].
  apply (deleteAdvice_frame Sample.general_chat "a2"). exact H.
Defined.

(** ** Creating the user *)

Section CreateUser.

Variable w : World.
Variable now : N.
Variable net : reply unit.
Variable netProfile : reply UserProfile.t.
Variables name email : string.
Variable assessment : json.
Let c := ui w.
Let newUserId := "user_" +:+ pretty now.
Let w' := exec (createUser c now net netProfile name email assessment) w.

Lemma createUser_request :
  exists rest,
    requests w'
    = requests w
      ++ Request.mk "POST" "http://localhost:8000/api/users"
           [("Content-Type", "application/json")]
           (Some (JObj [("user_id", JStr newUserId); ("name", JStr name);
                        ("email", JStr email); ("self_assessment", assessment)]))
      :: rest.
Proof.
  unfold w', createUser.
  destruct net as [e|[[]|st]]; [| destruct netProfile as [e|[p|st]] |];
    run_handler; rewrite <- ?app_assoc; eexists; reflexivity.
Qed.

(** C10. [createUser] stores the generated identifier under the
    application key and makes it the current user exactly when the response
    to POST /api/users is successful. When the request is rejected or
    answered with another status nothing is written to local storage and
    no state cell changes: a user that was unset stays unset and the
    onboarding screen stays. *)
Theorem createUser_adopts_on_success_only :
  match successful net with
  | Some _ =>
      userId (ui w') = Some newUserId
      /\ storage_ops w' = storage_ops w ++ [setItem "luvvtapp_user_id" newUserId]
      /\ localStorage w' = <["luvvtapp_user_id" := newUserId]> (localStorage w)
  | None =>
      ui w' = ui w
      /\ storage_ops w' = storage_ops w
      /\ localStorage w' = localStorage w
      /\ (userId c = None -> userId (ui w') = None)
      /\ (shows_onboarding c = true -> shows_onboarding (ui w') = true)
  end.
Proof.
  unfold w', createUser.
  destruct net as [e|[[]|st]]; [| destruct netProfile as [e|[p|st]] |];
    run_handler; repeat split; auto.
Qed.

End CreateUser.

Lemma createUser_adopts_on_success_only_witness :
  userId (ui Sample.fresh) = None
  /\ shows_onboarding (ui Sample.fresh) = true
  /\ userId (ui (exec (createUser (ui Sample.fresh) 1700000000000
                         (Resolved (Failure 500)) (Rejected "never asked")
                         "Al" "al@example.org" JNull) Sample.fresh)) = None.
Proof.
  split; [reflexivity |]. split; [reflexivity |].
  pose proof (createUser_adopts_on_success_only Sample.fresh 1700000000000
                (Resolved (Failure 500)) (Rejected "never asked")
                "Al" "al@example.org" JNull) as H.
  simpl in H. destruct H as (_ & _ & _ & H & _). apply H. reflexivity.
Defined.

(** ** Submitting the onboarding form *)

(** C4. When the onboarding form is submitted with the three optional
    fields empty (whatever the name and the email, which the Continue button
    requires to be non-empty), the client posts to /api/users a body with the
    generated user_id, the name, the email and [self_assessment: null]: no
    self-assessment value goes out. *)
Theorem onboarding_submit_omits_assessment
    (w : World) (l : Onboarding.state) (now : N)
    (net : reply unit) (netProfile : reply UserProfile.t) :
  let f := Onboarding.formData l in
  Onboarding.name f <> "" -> Onboarding.email f <> "" ->
  Onboarding.personalityType f = "" ->
  Onboarding.loveLanguage f = "" ->
  Onboarding.communicationStyle f = "" ->
  let w' := exec (Onboarding_handleSubmit l (createUser (ui w) now net netProfile)) w in
  exists body rest,
    requests w'
    = requests w
      ++ Request.mk "POST" "http://localhost:8000/api/users"
           [("Content-Type", "application/json")] (Some body) :: rest
    /\ body = JObj [("user_id", JStr ("user_" +:+ pretty now));
                    ("name", JStr (Onboarding.name f));
                    ("email", JStr (Onboarding.email f));
                    ("self_assessment", JNull)]
    /\ Json.get "self_assessment" body = Some JNull
    /\ Json.get "personality_type" body = None
    /\ Json.get "love_language" body = None
    /\ Json.get "communication_style" body = None.
Proof.
  intros f _ _ Hp Hl Hc w'.
  destruct (createUser_request w now net netProfile (Onboarding.name f)
              (Onboarding.email f) JNull) as [rest Hreq].
  exists (JObj [("user_id", JStr ("user_" +:+ pretty now));
                ("name", JStr (Onboarding.name f));
                ("email", JStr (Onboarding.email f));
                ("self_assessment", JNull)]), rest.
  split; [| repeat split; reflexivity].
  unfold w', Onboarding_handleSubmit, assessment_props. fold f.
  rewrite Hp, Hl, Hc. simpl. unfold exec, no_await in *. simpl. exact Hreq.
Qed.

Lemma onboarding_submit_omits_assessment_witness :
  exists body rest,
    requests (exec (Onboarding_handleSubmit
                      (Onboarding.mk 2 (Onboarding.mkForm "Al" "al@example.org" "" "" ""))
                      (createUser (ui Sample.fresh) 1700000000000
                         (Resolved (Success tt)) (Resolved (Failure 404))))
                Sample.fresh)
    = Request.mk "POST" "http://localhost:8000/api/users"
        [("Content-Type", "application/json")] (Some body) :: rest
    /\ Json.get "self_assessment" body = Some JNull.
Proof.
  destruct (onboarding_submit_omits_assessment Sample.fresh
              (Onboarding.mk 2 (Onboarding.mkForm "Al" "al@example.org" "" "" ""))
              1700000000000 (Resolved (Success tt)) (Resolved (Failure 404)))
    as (body & rest & Hreq & _ & Hsa & _); try reflexivity; try discriminate.
  exists body, rest. split; [exact Hreq | exact Hsa].
Defined.

(** ** Relations that every step of a handler respects *)

Section Preservation.

Variable R : World -> World -> Prop.
Context `{!PreOrder R}.

Lemma preserves_mret {A} (a : A) : preserves R (mret a).
Proof. intros w. reflexivity. Qed.

Lemma preserves_skip : preserves R skip.
Proof. apply preserves_mret. Qed.

Lemma preserves_bind {A B} (m : M A) (f : A -> M B) :
  preserves R m -> (forall a, preserves R (f a)) -> preserves R (m ≫= f).
Proof.
  intros Hm Hf w. unfold mbind, M_bind. specialize (Hm w).
  destruct (m w) as [[a|e] w1]; simpl in *; [| exact Hm].
  etransitivity; [exact Hm | apply Hf].
Qed.

Lemma preserves_try_catch (body : M unit) (handler : string -> M unit) :
  preserves R body -> (forall e, preserves R (handler e)) ->
  preserves R (try_catch body handler).
Proof.
  intros Hb Hh w. unfold try_catch. specialize (Hb w).
  destruct (body w) as [[a|e] w1]; simpl in *; [exact Hb |].
  etransitivity; [exact Hb | apply Hh].
Qed.

Lemma preserves_try_finally (body fin : M unit) :
  preserves R body -> preserves R fin -> preserves R (try_finally body fin).
Proof.
  intros Hb Hf w. unfold try_finally. specialize (Hb w).
  destruct (body w) as [k w1]. specialize (Hf w1).
  destruct (fin w1) as [[a|e] w2]; simpl in *; etransitivity; eassumption.
Qed.

Lemma preserves_no_await (m : M unit) : preserves R m -> preserves R (no_await m).
Proof. intros Hm w. apply Hm. Qed.

Lemma preserves_exec (m : M unit) (w : World) : preserves R m -> R w (exec m w).
Proof. intros Hm. apply Hm. Qed.

End Preservation.

(** Splits a handler into its primitive steps; [prim] closes those. *)
Ltac preserve_with prim :=
  autounfold with handlers;
  repeat first
    [ lazymatch goal with
      | |- PreOrder _ => apply _
      | |- forall _, _ => intros ?
      | |- preserves _ skip => apply preserves_skip
      | |- preserves _ (mret _) => apply preserves_mret
      | |- preserves _ (no_await _) => apply preserves_no_await
      | |- preserves _ (try_catch _ _) => apply preserves_try_catch
      | |- preserves _ (try_finally _ _) => apply preserves_try_finally
      | |- preserves _ (mbind _ _) => apply preserves_bind
      | |- preserves _ (if ?b then _ else _) => destruct b
      | |- preserves _ (match ?x with _ => _ end) => destruct x
      end
    | progress cbv beta zeta
    | solve [prim] ].

(** ** The advice situation text *)

Lemma slice0_cons (n : nat) (a : ascii) (s : string) :
  JsString.slice0 (S n) (String a s) = String a (JsString.slice0 n s).
Proof. reflexivity. Qed.

Lemma slice0_length (n : nat) (s : string) :
  String.length (JsString.slice0 n s) <= n.
Proof.
  revert s. induction n as [|n IH]; intros [|a s];
    try (change (JsString.slice0 _ _) with EmptyString; cbn; lia).
  rewrite slice0_cons. cbn. specialize (IH s). lia.
Qed.

Lemma slice0_short (n : nat) (s : string) :
  String.length s <= n -> JsString.slice0 n s = s.
Proof.
  revert s. induction n as [|n IH]; intros [|a s] H; try reflexivity;
    try (cbn in H; lia).
  rewrite slice0_cons, IH; [reflexivity | cbn in H; lia].
Qed.

#[global] Instance keeps_situation_bounded_preorder : PreOrder keeps_situation_bounded.
Proof. split; [intros w H; exact H | intros a b d Hab Hbd H; auto]. Qed.

Ltac situation_prim :=
  let w := fresh "w" in
  let Hb := fresh "Hb" in
  intros w Hb; autounfold with monad; unfold situation_bounded in *; cbn;
  first [ exact Hb | apply slice0_length | cbn; lia ].

Lemma handler_keeps_situation_bounded (ev : event) (w0 : World) :
  preserves keeps_situation_bounded (handler ev w0).
Proof. destruct ev; cbn [handler]; preserve_with situation_prim. Qed.

Lemma effect_keeps_situation_bounded (c : AppState) (nets : effect_replies) :
  preserves keeps_situation_bounded (userId_effect c nets).
Proof. preserve_with situation_prim. Qed.

Lemma dispatch_keeps_situation_bounded (ev : event) (nets : effect_replies) (w : World) :
  keeps_situation_bounded w (dispatch ev nets w).
Proof.
  unfold dispatch, commit.
  etransitivity; [apply (handler_keeps_situation_bounded ev w) |].
  fold (exec (handler ev w) w).
  set (w1 := exec (handler ev w) w).
  case_bool_decide.
  - intros Hb. exact Hb.
  - etransitivity; [apply (effect_keeps_situation_bounded (ui w1) nets) |].
    intros Hb. exact Hb.
Qed.

Lemma mount_situation_bounded (store : gmap string string) (nets : effect_replies) :
  situation_bounded (ui (mount store nets)).
Proof.
  unfold mount.
  set (w1 := with_ui _ _).
  change (situation_bounded (ui (exec (userId_effect (ui w1) nets) w1))).
  apply (effect_keeps_situation_bounded (ui w1) nets w1).
  unfold situation_bounded. cbn. lia.
Qed.

Lemma run_keeps_situation_bounded (evs : list (event * effect_replies)) (w : World) :
  situation_bounded (ui w) -> situation_bounded (ui (run evs w)).
Proof.
  revert w. induction evs as [|[ev nets] evs IH]; intros w H; simpl; [exact H |].
  apply IH. apply dispatch_keeps_situation_bounded. exact H.
Qed.

Lemma truthy_nonempty (s : string) : s <> "" -> JsString.truthy s = true.
Proof. destruct s; [congruence | reflexivity]. Qed.

(** C3. The advice situation text held in state (the one shown, with its
    length as the character count) is never longer than 1000 characters in
    any world the client reaches; what is typed into the text area is cut to
    its first 1000 characters before it is stored; and the situation field
    of the body that [submitAdvice] posts to /api/advice is the text of the
    state cut to its first 1000 characters, hence the text itself in a
    reachable state. *)
Theorem advice_situation_truncated :
  (forall store nets evs,
     String.length (adviceSituation (ui (run evs (mount store nets)))) <= 1000)
  /\ (forall value w,
        adviceSituation (ui (exec (changeAdviceSituation value) w))
        = JsString.slice0 1000 value
        /\ String.length (JsString.slice0 1000 value) <= 1000)
  /\ (forall w net netList,
        adviceTopic (ui w) <> "" ->
        JsString.trim (adviceSituation (ui w)) <> "" ->
        exists body rest,
          requests (exec (submitAdvice (ui w) net netList) w)
          = requests w
            ++ Request.mk "POST" "http://localhost:8000/api/advice"
                 [("Content-Type", "application/json")] (Some body) :: rest
          /\ Json.get "situation" body
             = Some (JStr (JsString.slice0 1000 (adviceSituation (ui w))))
          /\ String.length (JsString.slice0 1000 (adviceSituation (ui w))) <= 1000
          /\ (String.length (adviceSituation (ui w)) <= 1000 ->
              Json.get "situation" body = Some (JStr (adviceSituation (ui w))))).
Proof.
  split; [| split].
  - intros store nets evs.
    apply (run_keeps_situation_bounded evs), mount_situation_bounded.
  - intros value w. split; [reflexivity | apply slice0_length].
  - intros w net netList Ht Hs.
    exists (Json.stringify (advice_payload (ui w))).
    assert (Hget : Json.get "situation" (Json.stringify (advice_payload (ui w)))
                   = Some (JStr (JsString.slice0 1000 (adviceSituation (ui w))))).
    { unfold advice_payload, Json.stringify, Json.stringify_props. reflexivity. }
    assert (Hreq : exists rest,
               requests (exec (submitAdvice (ui w) net netList) w)
               = requests w
                 ++ Request.mk "POST" "http://localhost:8000/api/advice"
                      [("Content-Type", "application/json")]
                      (Some (Json.stringify (advice_payload (ui w)))) :: rest).
    { unfold submitAdvice.
      rewrite (truthy_nonempty _ Ht), (truthy_nonempty _ Hs). cbn [negb orb].
      destruct net as [e|[data|st]];
        [| unfold loadAdviceList; destruct (falsy (userId (ui w)));
           [| destruct netList as [e|[l|st]]] |];
        run_handler; rewrite <- ?app_assoc; eexists; reflexivity. }
    destruct Hreq as [rest Hreq]. exists rest.
    split; [exact Hreq |]. split; [exact Hget |].
    split; [apply slice0_length |].
    intros Hlen. rewrite Hget, slice0_short; [reflexivity | exact Hlen].
Qed.

Lemma advice_situation_truncated_witness :
  adviceTopic (upd_adviceSituation "We argue a lot" Sample.typing) <> ""
  /\ JsString.trim (adviceSituation (upd_adviceSituation "We argue a lot" Sample.typing))
     <> ""
  /\ exists body rest,
       requests (exec (submitAdvice (upd_adviceSituation "We argue a lot" Sample.typing)
                         (Resolved (Failure 503)) (Rejected "unused"))
                   (Sample.world (upd_adviceSituation "We argue a lot" Sample.typing)))
       = Request.mk "POST" "http://localhost:8000/api/advice"
           [("Content-Type", "application/json")] (Some body) :: rest
       /\ Json.get "situation" body = Some (JStr "We argue a lot").
Proof.
  split; [discriminate |]. split; [discriminate |].
  destruct advice_situation_truncated as (_ & _ & H).
  destruct (H (Sample.world (upd_adviceSituation "We argue a lot" Sample.typing))
              (Resolved (Failure 503)) (Rejected "unused"))
    as (body & rest & Hreq & Hget & _); [discriminate | discriminate |].
  exists body, rest. split; [exact Hreq | exact Hget].
Defined.

(** ** Local storage *)

#[global] Instance storage_step_preorder : PreOrder storage_step.
Proof.
  split.
  - intros w. exists []. rewrite app_nil_r. repeat split. constructor.
  - intros a b d (o1 & E1 & F1 & L1) (o2 & E2 & F2 & L2).
    exists (o1 ++ o2). rewrite E2, E1, app_assoc. repeat split.
    + apply Forall_app; split; assumption.
    + intros k Hk. rewrite L2, L1; auto.
Qed.

Ltac storage_prim :=
  let w := fresh "w" in
  intros w; autounfold with monad; cbn;
  first
    [ exists []; rewrite app_nil_r; repeat split; constructor
    | eexists; split; [reflexivity |]; split;
      [ repeat constructor; eexists; reflexivity
      | intros k Hk; cbn;
        first [ reflexivity
              | apply lookup_insert_ne; congruence
              | apply lookup_delete_ne; congruence ] ] ].

Lemma handler_storage_step (ev : event) (w0 : World) :
  preserves storage_step (handler ev w0).
Proof. destruct ev; cbn [handler]; preserve_with storage_prim. Qed.

Lemma effect_storage_step (c : AppState) (nets : effect_replies) :
  preserves storage_step (userId_effect c nets).
Proof. preserve_with storage_prim. Qed.

Lemma render_storage_step : preserves storage_step render.
Proof. preserve_with storage_prim. Qed.

Lemma unmount_storage_step (w : World) : storage_step w (unmount w).
Proof. exists []. rewrite app_nil_r. repeat split. constructor. Qed.

Lemma dispatch_storage_step (ev : event) (nets : effect_replies) (w : World) :
  storage_step w (dispatch ev nets w).
Proof.
  unfold dispatch, commit.
  etransitivity; [apply (handler_storage_step ev w) |].
  fold (exec (handler ev w) w).
  set (w1 := exec (handler ev w) w).
  etransitivity; [| apply unmount_storage_step].
  etransitivity; [| apply (preserves_exec _ _ _ render_storage_step)].
  case_bool_decide; [reflexivity |].
  apply (preserves_exec _ _ _ (effect_storage_step (ui w1) nets)).
Qed.

Lemma run_storage_step (evs : list (event * effect_replies)) (w : World) :
  storage_step w (run evs w).
Proof.
  revert w. induction evs as [|[ev nets] evs IH]; intros w; simpl; [reflexivity |].
  etransitivity; [apply dispatch_storage_step | apply IH].
Qed.

#[global] Instance storage_untouched_preorder : PreOrder storage_untouched.
Proof.
  split; [intros w; split; reflexivity |].
  intros a b d [E1 L1] [E2 L2]. split; congruence.
Qed.

Lemma effect_storage_untouched (c : AppState) (nets : effect_replies) :
  preserves storage_untouched (userId_effect c nets).
Proof.
  preserve_with ltac:(intros ?; autounfold with monad; cbn; split; reflexivity).
Qed.

Lemma mount_storage (store : gmap string string) (nets : effect_replies) :
  storage_ops (mount store nets) = [getItem "luvvtapp_user_id"]
  /\ localStorage (mount store nets) = store.
Proof.
  unfold mount.
  set (w1 := with_ui _ _).
  destruct (effect_storage_untouched (ui w1) nets w1) as [E L].
  fold (exec (userId_effect (ui w1) nets) w1) in E, L.
  unfold unmount. cbn [storage_ops localStorage].
  rewrite E, L. split; reflexivity.
Qed.

Lemma render_unmount (w : World) :
  storage_ops (unmount (exec render w)) = storage_ops w ++ [getItem "luvvtapp_user_id"]
  /\ localStorage (unmount (exec render w)) = localStorage w
  /\ ui (unmount (exec render w)) = ui w.
Proof. repeat split; reflexivity. Qed.

Lemma signOut_storage (nets : effect_replies) (w : World) :
  localStorage (dispatch EvSignOut nets w) = delete "luvvtapp_user_id" (localStorage w)
  /\ storage_ops (dispatch EvSignOut nets w)
     = storage_ops w ++ [removeItem "luvvtapp_user_id"; getItem "luvvtapp_user_id"]
  /\ userId (ui (dispatch EvSignOut nets w)) = None.
Proof.
  unfold dispatch, commit. cbn [handler].
  set (w1 := exec signOut w).
  assert (H1 : localStorage w1 = delete "luvvtapp_user_id" (localStorage w)
               /\ storage_ops w1 = storage_ops w ++ [removeItem "luvvtapp_user_id"]
               /\ userId (ui w1) = None) by (repeat split; reflexivity).
  destruct H1 as (L1 & O1 & U1).
  destruct (effect_storage_untouched (ui w1) nets w1) as [E L].
  fold (exec (userId_effect (ui w1) nets) w1) in E, L.
  assert (U2 : userId (ui (exec (userId_effect (ui w1) nets) w1)) = None).
  { unfold userId_effect. rewrite U1. cbn [falsy negb].
    unfold loadSessions. rewrite U1. reflexivity. }
  set (w2 := if bool_decide (userId (ui w1) = userId (ui w)) then w1
             else exec (userId_effect (ui w1) nets) w1).
  assert (H2 : localStorage w2 = localStorage w1 /\ storage_ops w2 = storage_ops w1
               /\ userId (ui w2) = None).
  { unfold w2. case_bool_decide; auto. }
  destruct H2 as (L2 & O2 & U2').
  destruct (render_unmount w2) as (O3 & L3 & U3).
  rewrite O3, L3, U3, L2, O2, L1, O1, <- app_assoc. auto.
Qed.

(** C7. In every world the client reaches, each call it made on local
    storage (read, write or removal) used the key 'luvvtapp_user_id', each
    value it wrote is an identifier generated by [createUser], and every
    other key of the storage is as the browser had it at mount; the value
    that [createUser] writes is the identifier it generated, posted and
    adopted; signing out removes the key. *)
Theorem local_storage_single_key :
  (forall store nets evs,
     Forall disciplined (storage_ops (run evs (mount store nets)))
     /\ forall k, k <> "luvvtapp_user_id" ->
          localStorage (run evs (mount store nets)) !! k = store !! k)
  /\ (forall w now net netProfile name email assessment k v,
        setItem k v ∈ storage_ops (exec (createUser (ui w) now net netProfile
                                            name email assessment) w) ->
        setItem k v ∈ storage_ops w
        \/ (k = "luvvtapp_user_id" /\ v = "user_" +:+ pretty now
            /\ userId (ui (exec (createUser (ui w) now net netProfile
                                   name email assessment) w)) = Some v))
  /\ (forall w nets,
        localStorage (dispatch EvSignOut nets w) !! "luvvtapp_user_id" = None
        /\ removeItem "luvvtapp_user_id" ∈ storage_ops (dispatch EvSignOut nets w)
        /\ userId (ui (dispatch EvSignOut nets w)) = None).
Proof.
  split; [| split].
  - intros store nets evs.
    destruct (mount_storage store nets) as [O L].
    destruct (run_storage_step evs (mount store nets)) as (ops & E & F & K).
    split.
    + rewrite E, O. apply Forall_app. split; [| exact F].
      repeat constructor.
    + intros k Hk. rewrite (K k Hk), L. reflexivity.
  - intros w now net netProfile name email assessment k v.
    unfold createUser.
    destruct net as [e|[[]|st]]; [| destruct netProfile as [e|[p|st]] |];
      run_handler; auto;
      rewrite elem_of_app, list_elem_of_singleton;
      (intros [H|H]; [left; exact H | right; injection H as -> ->; auto]).
  - intros w nets. destruct (signOut_storage nets w) as (L & O & U).
    rewrite L, O. split; [apply lookup_delete_eq |]. split; [| exact U].
    rewrite elem_of_app. right. apply list_elem_of_here.
Qed.

Lemma local_storage_single_key_witness :
  setItem "luvvtapp_user_id" "user_1700000000000"
    ∈ storage_ops (exec (createUser (ui Sample.fresh) 1700000000000
                           (Resolved (Success tt)) (Resolved (Failure 404))
                           "Al" "al@example.org" JNull) Sample.fresh)
  /\ userId (ui (exec (createUser (ui Sample.fresh) 1700000000000
                         (Resolved (Success tt)) (Resolved (Failure 404))
                         "Al" "al@example.org" JNull) Sample.fresh))
     = Some "user_1700000000000".
Proof.
  assert (Hin : setItem "luvvtapp_user_id" "user_1700000000000"
                  ∈ storage_ops (exec (createUser (ui Sample.fresh) 1700000000000
                                         (Resolved (Success tt)) (Resolved (Failure 404))
                                         "Al" "al@example.org" JNull) Sample.fresh)).
  { apply list_elem_of_here. }
  split; [exact Hin |].
  destruct local_storage_single_key as (_ & H & _).
  destruct (H _ _ _ _ _ _ _ _ _ Hin) as [Hold | (_ & _ & Hu)]; [| exact Hu].
  apply list_elem_of_In in Hold. destruct Hold.
Defined.

(** ** Requests that fail *)

(** C1, as amended. For every request of the client that sits in a [try]
    with a [catch] (all but the submit of the partner wizard): when the
    request is rejected by the network the error is caught and logged once
    under the label of the call, when it is answered with a non-success
    status nothing is logged; in both cases the call ends normally, sends
    nothing more, leaves local storage and the child components alone and
    leaves the state cells as they were, except that [sendMessage] keeps the
    user's message appended and the input cleared ([loading] false) and
    [submitAdvice] leaves [adviceLoading] false. *)
Theorem failed_request_is_silent (w : World) (k : call) :
  call_failed k = true ->
  requests (exec (perform (ui w) k) w) <> requests w ->
  outcome (perform (ui w) k) w = Normal tt
  /\ console (exec (perform (ui w) k) w)
     = console w ++ match call_rejection k with
                    | Some e => [(call_label k, e)]
                    | None => []
                    end
  /\ ui (exec (perform (ui w) k) w) = after_failure k (ui w)
  /\ (exists req, requests (exec (perform (ui w) k) w) = requests w ++ [req])
  /\ localStorage (exec (perform (ui w) k) w) = localStorage w
  /\ storage_ops (exec (perform (ui w) k) w) = storage_ops w
  /\ onboarding (exec (perform (ui w) k) w) = onboarding w
  /\ addRelationshipForm (exec (perform (ui w) k) w) = addRelationshipForm w
  /\ wizard (exec (perform (ui w) k) w) = wizard w.
Proof.
  intros Hf.
  destruct k; cbn [call_failed] in Hf; cbn [perform call_rejection call_label after_failure];
    destruct net as [e|[d|st]]; try discriminate Hf; clear Hf;
    autounfold with handlers;
    repeat match goal with |- context [if ?b then _ else _] => destruct b end;
    autounfold with monad; cbn; rewrite ?app_nil_r;
    first [ intros Hreq; exfalso; apply Hreq; reflexivity
          | intros _; repeat split; try reflexivity; eexists; reflexivity ].
Qed.

Lemma failed_request_is_silent_witness :
  call_failed (CallSendMessage (Rejected "TypeError: Failed to fetch")) = true
  /\ console (exec (perform (ui Sample.general_chat)
                      (CallSendMessage (Rejected "TypeError: Failed to fetch")))
                Sample.general_chat)
     = [("Error sending message:", "TypeError: Failed to fetch")].
Proof.
  split; [reflexivity |].
  apply (failed_request_is_silent Sample.general_chat
           (CallSendMessage (Rejected "TypeError: Failed to fetch")));
    [reflexivity | discriminate].
Defined.

(** C1 as stated fails. After a rejected chat request the message list has
    grown and the input is empty; a non-success status is not logged; and a
    rejection in the submit of the partner wizard is not caught. *)
Lemma failure_is_not_always_invisible :
  (messages (ui (exec (sendMessage (ui Sample.general_chat)
                         (Rejected "TypeError: Failed to fetch")) Sample.general_chat))
   <> messages (ui Sample.general_chat)
   /\ inputMessage (ui (exec (sendMessage (ui Sample.general_chat)
                                (Rejected "TypeError: Failed to fetch"))
                          Sample.general_chat))
      <> inputMessage (ui Sample.general_chat))
  /\ console (exec (sendMessage (ui Sample.general_chat) (Resolved (Failure 500)))
                Sample.general_chat)
     = console Sample.general_chat
  /\ outcome (Wizard_submit (Some "user_17") Wizard.initial skip
                (Rejected "TypeError: Failed to fetch")) Sample.general_chat
     = Throw "TypeError: Failed to fetch".
Proof. repeat split; try reflexivity; discriminate. Qed.

(** What the submit of the wizard does with a rejected request: the
    [finally] runs, nothing is logged and the rejection reaches the caller. *)
Lemma Wizard_submit_rejected (userId : option string) (l : Wizard.state)
    (onSaved : M unit) (e : string) (w : World) :
  outcome (Wizard_submit userId l onSaved (Rejected e)) w = Throw e
  /\ console (exec (Wizard_submit userId l onSaved (Rejected e)) w) = console w
  /\ Wizard.saving (wizard (exec (Wizard_submit userId l onSaved (Rejected e)) w))
     = false
  /\ ui (exec (Wizard_submit userId l onSaved (Rejected e)) w) = ui w.
Proof. repeat split; reflexivity. Qed.

(** * Further properties of the handlers *)

(** ** Events that leave the user alone *)

Lemma render_unmount_traces (w : World) :
  requests (unmount (exec render w)) = requests w
  /\ console (unmount (exec render w)) = console w.
Proof. split; reflexivity. Qed.

(** An event whose handler keeps [userId] runs no effect. *)
Lemma dispatch_same_user (ev : event) (nets : effect_replies) (w : World) :
  userId (ui (exec (handler ev w) w)) = userId (ui w) ->
  ui (dispatch ev nets w) = ui (exec (handler ev w) w)
  /\ requests (dispatch ev nets w) = requests (exec (handler ev w) w)
  /\ console (dispatch ev nets w) = console (exec (handler ev w) w).
Proof.
  intros Hu. unfold dispatch, commit.
  rewrite bool_decide_eq_true_2 by exact Hu.
  destruct (render_unmount (exec (handler ev w) w)) as (_ & _ & U).
  destruct (render_unmount_traces (exec (handler ev w) w)) as (Rq & Co).
  auto.
Qed.

(** ** Sending a message: the remaining cases *)

(** X1. [sendMessage] with an input that is empty or white space only does
    nothing at all: no request leaves, no cell changes, nothing is logged. *)
Theorem sendMessage_blank_is_noop (c : AppState) (net : reply ChatReply.t) (w : World) :
  JsString.trim (inputMessage c) = "" ->
  sendMessage c net w = (Normal tt, w).
Proof. intros H. unfold sendMessage. rewrite H. reflexivity. Qed.

Lemma sendMessage_blank_is_noop_witness :
  JsString.trim (inputMessage (upd_inputMessage "   " Sample.typing)) = ""
  /\ sendMessage (upd_inputMessage "   " Sample.typing) Sample.hello Sample.general_chat
     = (Normal tt, Sample.general_chat).
Proof.
  split; [reflexivity |].
  apply (sendMessage_blank_is_noop (upd_inputMessage "   " Sample.typing)).
  reflexivity.
Defined.

(** X2. Whatever the reply, a [sendMessage] with a non-blank input ends
    normally with [loading] false and the input field empty, logs exactly the
    rejection if there was one, and changes no state cell other than
    [messages], [inputMessage], [loading] and [sessionId]; the session id
    changes only on a successful response. *)
Theorem sendMessage_settles (w : World) (net : reply ChatReply.t) :
  JsString.trim (inputMessage (ui w)) <> "" ->
  outcome (sendMessage (ui w) net) w = Normal tt
  /\ loading (ui (exec (sendMessage (ui w) net) w)) = false
  /\ inputMessage (ui (exec (sendMessage (ui w) net) w)) = ""
  /\ console (exec (sendMessage (ui w) net) w)
     = console w ++ match rejection net with
                    | Some e => [("Error sending message:", e)]
                    | None => []
                    end
  /\ sessionId (ui (exec (sendMessage (ui w) net) w))
     = match successful net with
       | Some data => Some (ChatReply.session_id data)
       | None => sessionId (ui w)
       end
  /\ ui (exec (sendMessage (ui w) net) w)
     = upd_loading false
         (upd_sessionId (sessionId (ui (exec (sendMessage (ui w) net) w)))
            (upd_inputMessage ""
               (upd_messages (messages (ui (exec (sendMessage (ui w) net) w))) (ui w)))).
Proof.
  intros Hnb. unfold outcome.
  pose proof (sendMessage_unfold w net Hnb) as E. unfold exec in E |- *.
  assert (Ho : (sendMessage (ui w) net w).1 = Normal tt).
  { unfold sendMessage.
    destruct (JsString.trim (inputMessage (ui w))) eqn:Et; [congruence |].
    destruct net as [e|[data|st]]; reflexivity. }
  split; [exact Ho |]. rewrite E.
  destruct net as [e|[data|st]]; run_handler; rewrite ?app_nil_r;
    repeat split; reflexivity.
Qed.

Lemma sendMessage_settles_witness :
  JsString.trim (inputMessage (ui Sample.general_chat)) <> ""
  /\ loading (ui (exec (sendMessage (ui Sample.general_chat) (Rejected "offline"))
                    Sample.general_chat)) = false.
Proof.
  split; [discriminate |].
  apply (sendMessage_settles Sample.general_chat (Rejected "offline")).
  discriminate.
Defined.

(** The request of a message typed and sent in a world [w]. *)
Lemma type_and_send (w : World) (value : string) (net : reply ChatReply.t)
    (nets nets' : effect_replies) :
  JsString.trim value <> "" ->
  requests (dispatch (EvSend net) nets' (dispatch (EvInput value) nets w))
  = requests w
    ++ [POST (API_BASE_URL +:+ "/api/chat") (chat_payload (upd_inputMessage value (ui w)))].
Proof.
  intros Hv.
  destruct (dispatch_same_user (EvInput value) nets w eq_refl) as (U1 & R1 & _).
  set (w1 := dispatch (EvInput value) nets w) in *.
  assert (Hin : JsString.trim (inputMessage (ui w1)) <> "") by (rewrite U1; exact Hv).
  assert (Hu : userId (ui (exec (handler (EvSend net) w1) w1)) = userId (ui w1)).
  { cbn [handler]. change (exec (no_await ?m) ?x) with (exec m x).
    rewrite (sendMessage_unfold w1 net Hin).
    destruct net as [e|[data|st]]; reflexivity. }
  destruct (dispatch_same_user (EvSend net) nets' w1 Hu) as (_ & R2 & _).
  rewrite R2. cbn [handler]. change (exec (no_await ?m) ?x) with (exec m x).
  rewrite (sendMessage_request w1 net Hin), R1, U1. reflexivity.
Qed.

(** What a chat body holds under each of its keys. *)
Lemma chat_body_gets (c : AppState) :
  Json.get "message" (Json.stringify (chat_payload c)) = Some (JStr (inputMessage c))
  /\ Json.get "relationship_type" (Json.stringify (chat_payload c))
     = Some (JStr (JsString.or_else
                     (default "" (Relationship.relationship_type <$> selectedRelationship c))
                     "general"))
  /\ Json.get "partner_profile" (Json.stringify (chat_payload c))
     = selectedRelationship c ≫= Relationship.partner_profile
  /\ Json.get "session_id" (Json.stringify (chat_payload c))
     = Some (match sessionId c with Some i => JStr i | None => JNull end).
Proof.
  unfold chat_payload, Json.stringify, Json.stringify_props.
  destruct (selectedRelationship c) as [[rt [pp|]]|];
    destruct (userProfile c) as [[n e [sa|]]|]; repeat split; reflexivity.
Qed.

(** X3. A conversation stays in its session: after a successful reply to a
    first message, the next message that is typed and sent carries the
    session id which that reply returned. *)
Theorem next_message_carries_session
    (w : World) (first : ChatReply.t) (value : string) (net : reply ChatReply.t)
    (nets1 nets2 nets3 : effect_replies) :
  JsString.trim (inputMessage (ui w)) <> "" ->
  JsString.trim value <> "" ->
  exists body,
    requests (dispatch (EvSend net) nets3
                (dispatch (EvInput value) nets2
                   (dispatch (EvSend (Resolved (Success first))) nets1 w)))
    = requests (dispatch (EvSend (Resolved (Success first))) nets1 w)
      ++ [Request.mk "POST" "http://localhost:8000/api/chat"
            [("Content-Type", "application/json")] (Some body)]
    /\ Json.get "session_id" body = Some (JStr (ChatReply.session_id first))
    /\ Json.get "message" body = Some (JStr value).
Proof.
  intros Hnb Hv.
  set (w1 := dispatch (EvSend (Resolved (Success first))) nets1 w).
  assert (Hs : sessionId (ui w1) = Some (ChatReply.session_id first)).
  { assert (Hu : userId (ui (exec (handler (EvSend (Resolved (Success first))) w) w))
                 = userId (ui w)).
    { cbn [handler]. change (exec (no_await ?m) ?x) with (exec m x).
      rewrite (sendMessage_unfold w _ Hnb). reflexivity. }
    destruct (dispatch_same_user _ nets1 w Hu) as (U & _ & _).
    unfold w1. rewrite U. cbn [handler]. change (exec (no_await ?m) ?x) with (exec m x).
    rewrite (sendMessage_unfold w _ Hnb). reflexivity. }
  eexists. split; [apply (type_and_send w1 value net nets2 nets3 Hv) |].
  destruct (chat_body_gets (upd_inputMessage value (ui w1))) as (Hm & _ & _ & Hsid).
  split; [| exact Hm].
  rewrite Hsid. cbn [sessionId upd_inputMessage]. rewrite Hs. reflexivity.
Qed.

Lemma next_message_carries_session_witness :
  JsString.trim (inputMessage (ui Sample.general_chat)) <> ""
  /\ JsString.trim "and then?" <> ""
  /\ exists body rest,
       Request.body <$> requests
         (dispatch (EvSend (Rejected "offline")) offline
            (dispatch (EvInput "and then?") offline
               (dispatch (EvSend Sample.hello) offline
                  Sample.general_chat)))
       = rest ++ [Some body]
       /\ Json.get "session_id" body = Some (JStr "s10").
Proof.
  split; [discriminate |]. split; [discriminate |].
  destruct (next_message_carries_session Sample.general_chat
              (ChatReply.mk "s10" "hello!") "and then?" (Rejected "offline")
              offline
              offline
              offline)
    as (body & Hreq & Hsid & _); [discriminate | discriminate |].
  exists body. eexists. split; [| exact Hsid].
  unfold Sample.hello. rewrite Hreq, fmap_app. reflexivity.
Defined.

(** X4. Choosing a relationship in the sidebar starts a new conversation in
    its context: the message list is emptied, and the next message typed and
    sent goes out with a null session id, the partner profile of that
    relationship and its type ('general' if the type is empty). *)
Theorem relationship_starts_new_session
    (w : World) (rel : Relationship.t) (value : string) (net : reply ChatReply.t)
    (nets1 nets2 nets3 : effect_replies) :
  JsString.trim value <> "" ->
  messages (ui (dispatch (EvSelectRelationship rel) nets1 w)) = []
  /\ exists body,
       requests (dispatch (EvSend net) nets3
                   (dispatch (EvInput value) nets2
                      (dispatch (EvSelectRelationship rel) nets1 w)))
       = requests w
         ++ [Request.mk "POST" "http://localhost:8000/api/chat"
               [("Content-Type", "application/json")] (Some body)]
       /\ Json.get "session_id" body = Some JNull
       /\ Json.get "partner_profile" body = Relationship.partner_profile rel
       /\ Json.get "relationship_type" body
          = Some (JStr (if JsString.truthy (Relationship.relationship_type rel)
                        then Relationship.relationship_type rel else "general")).
Proof.
  intros Hv.
  destruct (dispatch_same_user (EvSelectRelationship rel) nets1 w eq_refl)
    as (U & Rq & _).
  set (w1 := dispatch (EvSelectRelationship rel) nets1 w) in *.
  split; [rewrite U; reflexivity |].
  eexists. split.
  { rewrite (type_and_send w1 value net nets2 nets3 Hv), Rq. reflexivity. }
  destruct (chat_body_gets (upd_inputMessage value (ui w1))) as (_ & Ht & Hp & Hsid).
  rewrite Hsid, Hp, Ht, U. repeat split; reflexivity.
Qed.

Lemma relationship_starts_new_session_witness :
  JsString.trim "hi Sam" <> ""
  /\ messages (ui (dispatch (EvSelectRelationship Sample.sam)
                     offline
                     Sample.general_chat)) = [].
Proof.
  split; [discriminate |].
  apply (relationship_starts_new_session Sample.general_chat Sample.sam "hi Sam"
           (Rejected "offline")
           offline
           offline
           offline).
  discriminate.
Defined.

(** X5. A message sent after a stored session was opened continues that
    session: it carries the id of the opened session, the partner profile
    the history carried (none if it carried none) and, with a profile, the
    relationship type of the history or 'general'. *)
Theorem opened_session_is_continued
    (w : World) (s : Session.t) (data : History.t) (value : string)
    (net : reply ChatReply.t) (nets1 nets2 nets3 : effect_replies) :
  JsString.trim value <> "" ->
  exists body,
    requests (dispatch (EvSend net) nets3
                (dispatch (EvInput value) nets2
                   (dispatch (EvOpenSession s (Resolved (Success data))) nets1 w)))
    = requests (dispatch (EvOpenSession s (Resolved (Success data))) nets1 w)
      ++ [Request.mk "POST" "http://localhost:8000/api/chat"
            [("Content-Type", "application/json")] (Some body)]
    /\ Json.get "session_id" body = Some (JStr (Session.session_id s))
    /\ Json.get "partner_profile" body = carried_profile data
    /\ Json.get "relationship_type" body
       = Some (JStr match carried_profile data with
                    | Some _ => type_or_general data
                    | None => "general"
                    end).
Proof.
  intros Hv.
  assert (Hu : userId (ui (exec (handler (EvOpenSession s (Resolved (Success data))) w) w))
               = userId (ui w)).
  { cbn [handler]. destruct data as [ms [pp|] rt]; run_handler;
      [destruct (Json.truthy pp) |]; reflexivity. }
  destruct (dispatch_same_user _ nets1 w Hu) as (U & _ & _).
  set (w1 := dispatch (EvOpenSession s (Resolved (Success data))) nets1 w) in *.
  eexists. split; [apply (type_and_send w1 value net nets2 nets3 Hv) |].
  destruct (chat_body_gets (upd_inputMessage value (ui w1))) as (_ & Ht & Hp & Hsid).
  rewrite Hsid, Hp, Ht, U. clear.
  unfold carried_profile, type_or_general. cbn [handler].
  destruct data as [ms [pp|] rt]; run_handler;
    [destruct (Json.truthy pp) |]; cbn; repeat split; try reflexivity.
  destruct rt as [[|a t]|]; reflexivity.
Qed.

Lemma opened_session_is_continued_witness :
  JsString.trim "still there?" <> ""
  /\ exists body rest,
       Request.body <$> requests
         (dispatch (EvSend (Rejected "offline")) offline
            (dispatch (EvInput "still there?") offline
               (dispatch (EvOpenSession (Session.mk "s1" None None None "2024-05-01")
                            (Resolved (Success (History.mk None None None))))
                  offline
                  Sample.partner_chat)))
       = rest ++ [Some body]
       /\ Json.get "session_id" body = Some (JStr "s1")
       /\ Json.get "partner_profile" body = None.
Proof.
  split; [discriminate |].
  destruct (opened_session_is_continued Sample.partner_chat
              (Session.mk "s1" None None None "2024-05-01") (History.mk None None None)
              "still there?" (Rejected "offline")
              offline
              offline
              offline)
    as (body & Hreq & Hsid & Hpp & _); [discriminate |].
  exists body. eexists. split; [| split; [exact Hsid | exact Hpp]].
  rewrite Hreq, fmap_app. reflexivity.
Defined.

(** ** Asking for advice *)

(** X6. [submitAdvice] does nothing at all when no topic is chosen or the
    situation text is empty or white space only: no request, no change. *)
Theorem submitAdvice_guard (c : AppState) (net : reply Advice.t)
    (netList : reply (option (list AdviceItem.t))) (w : World) :
  adviceTopic c = "" \/ JsString.trim (adviceSituation c) = "" ->
  submitAdvice c net netList w = (Normal tt, w).
Proof.
  intros [H|H]; unfold submitAdvice; rewrite H; cbn.
  - reflexivity.
  - destruct (JsString.truthy (adviceTopic c)); reflexivity.
Qed.

Lemma submitAdvice_guard_witness :
  (adviceTopic Sample.typing = "" \/ JsString.trim (adviceSituation Sample.typing) = "")
  /\ submitAdvice Sample.typing (Rejected "offline") (Rejected "offline")
       Sample.general_chat
     = (Normal tt, Sample.general_chat).
Proof.
  assert (H : adviceTopic Sample.typing = ""
              \/ JsString.trim (adviceSituation Sample.typing) = "")
    by (right; reflexivity).
  split; [exact H |].
  apply (submitAdvice_guard Sample.typing). exact H.
Defined.

(** X7. After a successful advice request the advice returned is the one in
    view, the advice panel is closed, its text and partner are reset,
    [adviceLoading] is false, and the advice list is asked for again (when a
    user is set): the list becomes the one returned, and stays as it was if
    that second request fails. *)
Theorem submitAdvice_success
    (w : World) (data : Advice.t) (netList : reply (option (list AdviceItem.t))) :
  adviceTopic (ui w) <> "" ->
  JsString.trim (adviceSituation (ui w)) <> "" ->
  selectedAdvice (ui (exec (submitAdvice (ui w) (Resolved (Success data)) netList) w))
  = Some data
  /\ adviceOpen (ui (exec (submitAdvice (ui w) (Resolved (Success data)) netList) w))
     = false
  /\ adviceSituation (ui (exec (submitAdvice (ui w) (Resolved (Success data)) netList) w))
     = ""
  /\ advicePartner (ui (exec (submitAdvice (ui w) (Resolved (Success data)) netList) w))
     = None
  /\ adviceLoading (ui (exec (submitAdvice (ui w) (Resolved (Success data)) netList) w))
     = false
  /\ (falsy (userId (ui w)) = false ->
      requests (exec (submitAdvice (ui w) (Resolved (Success data)) netList) w)
      = requests w
        ++ [POST (API_BASE_URL +:+ "/api/advice") (advice_payload (ui w));
            GET (API_BASE_URL +:+ "/api/advice/" +:+ template (userId (ui w)))]
      /\ adviceList (ui (exec (submitAdvice (ui w) (Resolved (Success data)) netList) w))
         = match successful netList with
           | Some l => default [] l
           | None => adviceList (ui w)
           end).
Proof.
  intros Ht Hs. unfold submitAdvice.
  rewrite (truthy_nonempty _ Ht), (truthy_nonempty _ Hs). cbn [negb orb].
  destruct data as [i t k d]. unfold loadAdviceList.
  destruct (falsy (userId (ui w))); [| destruct netList as [e|[l|st]]];
    run_handler; rewrite <- ?app_assoc; repeat split; try reflexivity;
    intros; try discriminate; split; reflexivity.
Qed.

Lemma submitAdvice_success_witness :
  adviceTopic (upd_adviceSituation "We argue a lot" Sample.typing) <> ""
  /\ JsString.trim (adviceSituation (upd_adviceSituation "We argue a lot" Sample.typing))
     <> ""
  /\ selectedAdvice
       (ui (exec (submitAdvice (upd_adviceSituation "We argue a lot" Sample.typing)
                    (Resolved (Success (Advice.mk "a9" "Communication" "Talk." "2024-06-01")))
                    (Rejected "offline"))
              (Sample.world (upd_adviceSituation "We argue a lot" Sample.typing))))
     = Some (Advice.mk "a9" "Communication" "Talk." "2024-06-01").
Proof.
  split; [discriminate |]. split; [discriminate |].
  apply (submitAdvice_success
           (Sample.world (upd_adviceSituation "We argue a lot" Sample.typing))
           (Advice.mk "a9" "Communication" "Talk." "2024-06-01") (Rejected "offline"));
    discriminate.
Defined.

(** X8. The body of an advice request has the fields user_id, topic and
    situation, then partner_profile only when a reference partner with a
    profile is chosen and self_assessment only when the user's profile has
    that property, and no other field. *)
Theorem advice_body_fields (c : AppState) :
  Json.keys (Json.stringify (advice_payload c))
  = ["user_id"; "topic"; "situation"]
    ++ match advicePartner c ≫= Relationship.partner_profile with
       | Some _ => ["partner_profile"] | None => [] end
    ++ match userProfile c ≫= UserProfile.self_assessment with
       | Some _ => ["self_assessment"] | None => [] end
  /\ Json.get "topic" (Json.stringify (advice_payload c)) = Some (JStr (adviceTopic c))
  /\ Json.get "partner_profile" (Json.stringify (advice_payload c))
     = advicePartner c ≫= Relationship.partner_profile
  /\ Json.get "self_assessment" (Json.stringify (advice_payload c))
     = userProfile c ≫= UserProfile.self_assessment.
Proof.
  unfold advice_payload, Json.stringify, Json.stringify_props.
  destruct (advicePartner c) as [[rt [pp|]]|];
    destruct (userProfile c) as [[n e [sa|]]|]; repeat split; reflexivity.
Qed.

(** X9. [openAdvice] on an entry without an advice_id sends nothing and
    changes nothing; otherwise it asks for that advice, and a successful
    reply puts the full record in view, shows the chat view and closes the
    sidebar, while a failed one changes no cell. *)
Theorem openAdvice_cases (item : AdviceItem.t) (net : reply Advice.t) (w : World) :
  (AdviceItem.advice_id item = "" -> openAdvice item net w = (Normal tt, w))
  /\ (AdviceItem.advice_id item <> "" ->
      requests (exec (openAdvice item net) w)
      = requests w ++ [GET (API_BASE_URL +:+ "/api/advice/item/"
                              +:+ AdviceItem.advice_id item)]
      /\ ui (exec (openAdvice item net) w)
         = match successful net with
           | Some full =>
               upd_sidebarOpen false
                 (upd_currentView chat (upd_selectedAdvice (Some full) (ui w)))
           | None => ui w
           end).
Proof.
  split; intros H; unfold openAdvice.
  - rewrite H. reflexivity.
  - rewrite (truthy_nonempty _ H). cbn [negb].
    destruct net as [e|[full|st]]; run_handler; split; reflexivity.
Qed.

Lemma openAdvice_cases_witness :
  AdviceItem.advice_id (AdviceItem.mk "a2" "Romance" "Plan a date") <> ""
  /\ selectedAdvice
       (ui (exec (openAdvice (AdviceItem.mk "a2" "Romance" "Plan a date")
                    (Resolved (Success (Advice.mk "a2" "Romance" "Plan." "2024-05-02"))))
              Sample.general_chat))
     = Some (Advice.mk "a2" "Romance" "Plan." "2024-05-02").
Proof.
  split; [discriminate |].
  destruct (openAdvice_cases (AdviceItem.mk "a2" "Romance" "Plan a date")
              (Resolved (Success (Advice.mk "a2" "Romance" "Plan." "2024-05-02")))
              Sample.general_chat) as [_ H].
  destruct H as [_ Hui]; [discriminate |].
  rewrite Hui. reflexivity.
Defined.

Lemma filter_all {A} (P : A -> Prop) `{forall x, Decision (P x)} (l : list A) :
  Forall P l -> filter P l = l.
Proof.
  induction 1 as [|x l Hx Hl IH]; [reflexivity |].
  rewrite filter_cons_True by exact Hx. by rewrite IH.
Qed.

Lemma filter_idem {A} (P : A -> Prop) `{forall x, Decision (P x)} (l : list A) :
  filter P (filter P l) = filter P l.
Proof.
  apply filter_all, Forall_forall. intros x Hx.
  apply list_elem_of_filter in Hx. tauto.
Qed.

(** X10. Deleting an advice_id that no entry of the list has leaves the
    list as it is, and deleting the same id a second time changes nothing
    more: the list and the advice in view are as after the first deletion. *)
Theorem deleteAdvice_absent_and_twice (w : World) (advice_id : string) :
  (Forall (fun a => AdviceItem.advice_id a <> advice_id) (adviceList (ui w)) ->
   adviceList (ui (exec (deleteAdvice (ui w) advice_id (Resolved (Success tt))) w))
   = adviceList (ui w))
  /\ ui (exec (deleteAdvice
                 (ui (exec (deleteAdvice (ui w) advice_id (Resolved (Success tt))) w))
                 advice_id (Resolved (Success tt)))
           (exec (deleteAdvice (ui w) advice_id (Resolved (Success tt))) w))
     = ui (exec (deleteAdvice (ui w) advice_id (Resolved (Success tt))) w).
Proof.
  split.
  - intros Hall. rewrite deleteAdvice_success_ui.
    destruct (views_advice (ui w) advice_id); cbn;
      apply filter_all; exact Hall.
  - rewrite (deleteAdvice_success_ui
               (exec (deleteAdvice (ui w) advice_id (Resolved (Success tt))) w)).
    rewrite !deleteAdvice_success_ui. unfold views_advice.
    destruct (selectedAdvice (ui w)) as [a|] eqn:Hs; [case_bool_decide |]; cbn;
      rewrite ?Hs, filter_idem; cbn.
    + reflexivity.
    + rewrite bool_decide_eq_false_2 by assumption. reflexivity.
    + reflexivity.
Qed.

Lemma deleteAdvice_absent_and_twice_witness :
  Forall (fun a => AdviceItem.advice_id a <> "a7") (adviceList (ui Sample.general_chat))
  /\ adviceList (ui (exec (deleteAdvice (ui Sample.general_chat) "a7"
                             (Resolved (Success tt))) Sample.general_chat))
     = adviceList (ui Sample.general_chat).
Proof.
  assert (H : Forall (fun a => AdviceItem.advice_id a <> "a7")
                (adviceList (ui Sample.general_chat))).
  { repeat constructor; discriminate. }
  split; [exact H |].
  apply (deleteAdvice_absent_and_twice Sample.general_chat "a7"). exact H.
Defined.

(** ** Onboarding with a self-assessment *)

Lemma assoc_elem_of (k : string) (v : json) (props : list (string * json)) :
  NoDup props.*1 -> Json.assoc k props = Some v <-> (k, v) ∈ props.
Proof.
  induction props as [|[k' v'] props IH]; intros Hnd; cbn.
  - split; [discriminate | intros H; apply elem_of_nil in H; destruct H].
  - apply NoDup_cons in Hnd as [Hk Hnd]. rewrite elem_of_cons.
    destruct (String.eqb_spec k k') as [->|Hne].
    + split.
      * intros [= ->]. left. reflexivity.
      * intros [[= ->]|Hin]; [reflexivity |].
        destruct Hk. apply list_elem_of_fmap. exists (k', v). split; [reflexivity | exact Hin].
    + rewrite (IH Hnd). split; [tauto |].
      intros [[= -> ->]|Hin]; [congruence | exact Hin].
Qed.

(** X11. Whatever is filled in, the onboarding form is posted to /api/users
    with a self_assessment that is null exactly when the three optional
    fields are all empty, and otherwise an object holding exactly the fields
    that are not empty, under the keys personality_type, love_language and
    communication_style; an empty field is never sent as an empty string. *)
Theorem onboarding_submit_assessment
    (w : World) (l : Onboarding.state) (now : N)
    (net : reply unit) (netProfile : reply UserProfile.t) :
  exists sa rest,
    requests (exec (Onboarding_handleSubmit l (createUser (ui w) now net netProfile)) w)
    = requests w
      ++ Request.mk "POST" "http://localhost:8000/api/users"
           [("Content-Type", "application/json")]
           (Some (JObj [("user_id", JStr ("user_" +:+ pretty now));
                        ("name", JStr (Onboarding.name (Onboarding.formData l)));
                        ("email", JStr (Onboarding.email (Onboarding.formData l)));
                        ("self_assessment", sa)])) :: rest
    /\ (sa = JNull <->
        Onboarding.personalityType (Onboarding.formData l) = ""
        /\ Onboarding.loveLanguage (Onboarding.formData l) = ""
        /\ Onboarding.communicationStyle (Onboarding.formData l) = "")
    /\ forall k v,
         Json.get k sa = Some v <->
         (k = "personality_type"
          /\ Onboarding.personalityType (Onboarding.formData l) <> ""
          /\ v = JStr (Onboarding.personalityType (Onboarding.formData l)))
         \/ (k = "love_language"
             /\ Onboarding.loveLanguage (Onboarding.formData l) <> ""
             /\ v = JStr (Onboarding.loveLanguage (Onboarding.formData l)))
         \/ (k = "communication_style"
             /\ Onboarding.communicationStyle (Onboarding.formData l) <> ""
             /\ v = JStr (Onboarding.communicationStyle (Onboarding.formData l))).
Proof.
  set (f := Onboarding.formData l).
  set (sa := if bool_decide (0 < length (assessment_props f))
             then JObj (assessment_props f) else JNull).
  destruct (createUser_request w now net netProfile (Onboarding.name f)
              (Onboarding.email f) sa) as [rest Hreq].
  exists sa, rest. split; [exact Hreq |].
  unfold sa, assessment_props.
  destruct (Onboarding.personalityType f) as [|a1 p];
    destruct (Onboarding.loveLanguage f) as [|a2 q];
    destruct (Onboarding.communicationStyle f) as [|a3 r]; cbn -[Json.assoc];
    rewrite ?bool_decide_eq_true_2 by (cbn; lia);
    rewrite ?bool_decide_eq_false_2 by (cbn; lia);
    (split; [split; [try discriminate; tauto | try reflexivity; intros (?&?&?); discriminate] |]);
    intros k v; cbn [Json.get];
    try (rewrite assoc_elem_of
           by (cbn; repeat (apply NoDup_cons; split;
                              [rewrite ?elem_of_cons, elem_of_nil; intuition discriminate |]);
               apply NoDup_nil_2));
    rewrite ?elem_of_cons, ?elem_of_nil;
    split; intros H; intuition (try discriminate; try congruence);
    repeat match goal with
           | H : (_, _) = (_, _) |- _ => injection H as -> ->
           end; auto 10.
Qed.

Example onboarding_submit_assessment_sample :
  Request.body <$> requests
    (exec (Onboarding_handleSubmit
             (Onboarding.mk 2 (Onboarding.mkForm "Al" "al@example.org" "INTJ" "" "Direct"))
             (createUser (ui Sample.fresh) 1700000000000 (Rejected "offline")
                (Rejected "offline"))) Sample.fresh)
  = [Some (JObj [("user_id", JStr "user_1700000000000"); ("name", JStr "Al");
                 ("email", JStr "al@example.org");
                 ("self_assessment",
                   JObj [("personality_type", JStr "INTJ");
                         ("communication_style", JStr "Direct")])])].
Proof. vm_compute. reflexivity. Qed.

(** ** The partner wizard *)

#[global] Instance wizard_untouched_preorder : PreOrder wizard_untouched.
Proof.
  split; [intros w; reflexivity |].
  intros a b d E1 E2. unfold wizard_untouched in *. congruence.
Qed.

Ltac wizard_prim :=
  let w := fresh "w" in
  intros w; autounfold with monad; reflexivity.

Lemma effect_wizard_untouched (c : AppState) (nets : effect_replies) :
  preserves wizard_untouched (userId_effect c nets).
Proof. preserve_with wizard_prim. Qed.

Lemma wizard_step_after_handler (ev : event) (w : World) :
  wizard_step_ok w -> wizard_step_ok (exec (handler ev w) w).
Proof.
  intros Hok. unfold wizard_step_ok in *.
  assert (Hframe : preserves wizard_untouched (handler ev w)
                   -> 1 <= Wizard.step (wizard (exec (handler ev w) w)) <= Wizard.total).
  { intros Hp. pose proof (Hp w) as E. unfold wizard_untouched in E.
    unfold exec. rewrite E. exact Hok. }
  destruct ev;
    try (apply Hframe; cbn [handler]; solve [preserve_with wizard_prim]); clear Hframe.
  - exact Hok.
  - cbn [handler]. unfold Wizard_next.
    destruct (_ && _); [exact Hok |]. cbn. unfold Wizard.total in *. lia.
  - cbn [handler]. unfold Wizard_prev. cbn. unfold Wizard.total in *. lia.
  - cbn [handler]. unfold Wizard_submit.
    destruct net as [e|[[]|st]]; [| destruct netList as [e|[l|st]] |];
      run_handler; exact Hok.
Qed.

Lemma wizard_step_after_dispatch (ev : event) (nets : effect_replies) (w : World) :
  wizard_step_ok w -> wizard_step_ok (dispatch ev nets w).
Proof.
  intros Hok. apply (wizard_step_after_handler ev) in Hok.
  unfold dispatch, commit.
  set (w1 := exec (handler ev w) w) in *.
  set (w2 := if bool_decide (userId (ui w1) = userId (ui w)) then w1
             else exec (userId_effect (ui w1) nets) w1).
  assert (H2 : wizard_step_ok w2).
  { unfold w2. case_bool_decide; [exact Hok |].
    unfold wizard_step_ok.
    pose proof (effect_wizard_untouched (ui w1) nets w1) as E.
    unfold wizard_untouched in E. unfold exec. rewrite E. exact Hok. }
  unfold wizard_step_ok, unmount in *. cbn [wizard].
  destruct (_ && _); [exact H2 |]. cbn. unfold Wizard.total. lia.
Qed.

(** X12. In every world the client reaches the step of the partner wizard
    is 1, 2 or 3: Save & Continue never goes past the review step, Back never
    goes before the first one. *)
Theorem wizard_step_in_range
    (store : gmap string string) (nets : effect_replies)
    (evs : list (event * effect_replies)) :
  1 <= Wizard.step (wizard (run evs (mount store nets))) <= 3.
Proof.
  change (wizard_step_ok (run evs (mount store nets))).
  assert (H0 : wizard_step_ok (mount store nets)).
  { unfold mount, unmount, wizard_step_ok. cbn [wizard].
    set (w1 := with_ui _ _).
    pose proof (effect_wizard_untouched (ui w1) nets w1) as E.
    unfold wizard_untouched in E. fold (exec (userId_effect (ui w1) nets) w1) in E.
    destruct (_ && _); [rewrite E |];
      change (1 <= Wizard.step Wizard.initial <= Wizard.total);
      cbn; unfold Wizard.total; lia. }
  revert H0. generalize (mount store nets).
  induction evs as [|[ev n] evs IH]; intros w Hw; cbn [run]; [exact Hw |].
  apply IH, wizard_step_after_dispatch, Hw.
Qed.

(** X13. On its first step the wizard does not move on while the name is
    blank or the birthday or the relationship status is empty: Save &
    Continue then changes nothing. With the three filled in, and on the later
    steps, it moves on by one step, but not past step 3, and keeps the form. *)
Theorem Wizard_next_cases (l : Wizard.state) (w : World) :
  (Wizard.step l = 1 -> ~ wizard_step1_complete (Wizard.form_ l) ->
   Wizard_next l w = (Normal tt, w))
  /\ (Wizard.step l <> 1 \/ wizard_step1_complete (Wizard.form_ l) ->
      wizard (exec (Wizard_next l) w)
      = Wizard.mk (Nat.min (Wizard.step l + 1) 3) (Wizard.saving (wizard w))
          (Wizard.form_ (wizard w))
      /\ ui (exec (Wizard_next l) w) = ui w).
Proof.
  unfold wizard_step1_complete, Wizard_next. split.
  - intros H1 Hn. rewrite H1.
    destruct (JsString.trim (Wizard.name (Wizard.form_ l))) eqn:E1; [reflexivity |].
    destruct (Wizard.birthday (Wizard.form_ l)) eqn:E2; [reflexivity |].
    destruct (Wizard.relationship_status (Wizard.form_ l)) eqn:E3; [reflexivity |].
    destruct Hn. repeat split; discriminate.
  - intros [Hs | (Hn & Hb & Hr)].
    + rewrite bool_decide_eq_false_2 by exact Hs. split; reflexivity.
    + rewrite (truthy_nonempty _ Hn), (truthy_nonempty _ Hb), (truthy_nonempty _ Hr).
      rewrite andb_false_r. split; reflexivity.
Qed.

Lemma Wizard_next_cases_witness :
  Wizard.step Wizard.initial = 1
  /\ ~ wizard_step1_complete (Wizard.form_ Wizard.initial)
  /\ Wizard_next Wizard.initial Sample.general_chat = (Normal tt, Sample.general_chat).
Proof.
  assert (H : ~ wizard_step1_complete (Wizard.form_ Wizard.initial)).
  { intros (Hn & _). apply Hn. reflexivity. }
  split; [reflexivity |]. split; [exact H |].
  apply (Wizard_next_cases Wizard.initial Sample.general_chat); [reflexivity | exact H].
Defined.

(** X14. The submit of the wizard always ends with [saving] false. After a
    successful response the relationships are asked for again and the
    settings view is shown; after a non-success status nothing is logged and
    no state cell changes; a rejected request is not caught: it is thrown to
    the caller, and nothing is logged either. *)
Theorem Wizard_submit_cases
    (c : AppState) (l : Wizard.state) (net : reply unit)
    (netList : reply (option (list Relationship.t))) (w : World) :
  let onSaved := no_await (loadRelationships c netList);; setCurrentView settings in
  let w' := exec (Wizard_submit (userId c) l onSaved net) w in
  Wizard.saving (wizard w') = false
  /\ match net with
     | Resolved (Success _) =>
         currentView (ui w') = settings
         /\ requests w'
            = requests w
              ++ [POST (API_BASE_URL +:+ "/api/relationships")
                    (Wizard_payload (userId c) (Wizard.form_ l));
                  GET (API_BASE_URL +:+ "/api/relationships/" +:+ template (userId c))]
         /\ relationships (ui w')
            = match successful netList with
              | Some rs => default [] rs
              | None => relationships (ui w)
              end
     | Resolved (Failure _) =>
         ui w' = ui w /\ console w' = console w
         /\ outcome (Wizard_submit (userId c) l onSaved net) w = Normal tt
     | Rejected e =>
         ui w' = ui w /\ console w' = console w
         /\ outcome (Wizard_submit (userId c) l onSaved net) w = Throw e
     end.
Proof.
  intros onSaved w'. unfold w', onSaved, Wizard_submit.
  destruct net as [e|[[]|st]]; [| destruct netList as [e|[rs|st]] |];
    run_handler; rewrite <- ?app_assoc; repeat split; reflexivity.
Qed.

(** ** Trimming and comma-separated lists *)

Lemma string_app_assoc (s1 s2 s3 : string) :
  (s1 +:+ s2) +:+ s3 = s1 +:+ (s2 +:+ s3).
Proof.
  induction s1 as [|a s1 IH]; [reflexivity |].
  change (String a ((s1 +:+ s2) +:+ s3) = String a (s1 +:+ (s2 +:+ s3))).
  by rewrite IH.
Qed.

Lemma string_app_nil_r (s : string) : s +:+ "" = s.
Proof.
  induction s as [|a s IH]; [reflexivity |].
  change (String a (s +:+ "") = String a s). by rewrite IH.
Qed.

Lemma rev_app_spec (s acc : string) :
  String.rev_app s acc = String.rev s +:+ acc.
Proof.
  unfold String.rev. revert acc.
  induction s as [|a s IH]; intros acc; [reflexivity |].
  cbn [String.rev_app]. rewrite (IH (String a acc)), (IH (String a "")).
  rewrite string_app_assoc. reflexivity.
Qed.

Lemma rev_cons (a : ascii) (s : string) :
  String.rev (String a s) = String.rev s +:+ String a "".
Proof. unfold String.rev at 1. cbn [String.rev_app]. apply rev_app_spec. Qed.

Lemma rev_app_distr (s1 s2 : string) :
  String.rev (s1 +:+ s2) = String.rev s2 +:+ String.rev s1.
Proof.
  induction s1 as [|a s1 IH].
  - change ("" +:+ s2) with s2. by rewrite string_app_nil_r.
  - change (String a s1 +:+ s2) with (String a (s1 +:+ s2)).
    rewrite !rev_cons, IH, string_app_assoc. reflexivity.
Qed.

Lemma rev_involutive (s : string) : String.rev (String.rev s) = s.
Proof.
  induction s as [|a s IH]; [reflexivity |].
  rewrite rev_cons, rev_app_distr, IH. reflexivity.
Qed.

Lemma trimStart_no_leading_space (s : string) :
  no_leading_space (JsString.trimStart s).
Proof.
  induction s as [|a s IH]; [exact I |].
  cbn [JsString.trimStart].
  destruct (JsString.is_white_space a) eqn:E; [exact IH | exact E].
Qed.

Lemma trimStart_fixed (s : string) :
  no_leading_space s -> JsString.trimStart s = s.
Proof. destruct s as [|a s]; [reflexivity |]. cbn. intros ->. reflexivity. Qed.

Lemma trimStart_suffix (s : string) : exists p, s = p +:+ JsString.trimStart s.
Proof.
  induction s as [|a s [p IH]]; [exists ""; reflexivity |].
  cbn [JsString.trimStart]. destruct (JsString.is_white_space a).
  - exists (String a p).
    change (String a s = String a (p +:+ JsString.trimStart s)). by rewrite <- IH.
  - exists "". reflexivity.
Qed.

Lemma trimEnd_fixed (s : string) :
  JsString.trimEnd (JsString.trimEnd s) = JsString.trimEnd s.
Proof.
  unfold JsString.trimEnd. rewrite rev_involutive.
  rewrite (trimStart_fixed (JsString.trimStart _)); [reflexivity |].
  apply trimStart_no_leading_space.
Qed.

Lemma trimEnd_no_leading_space (s : string) :
  no_leading_space s -> no_leading_space (JsString.trimEnd s).
Proof.
  intros Hs. unfold JsString.trimEnd.
  destruct (trimStart_suffix (String.rev s)) as [p Hp].
  assert (E : s = String.rev (JsString.trimStart (String.rev s)) +:+ String.rev p).
  { rewrite <- rev_app_distr, <- Hp, rev_involutive. reflexivity. }
  destruct (String.rev (JsString.trimStart (String.rev s))) as [|a u]; [exact I |].
  rewrite E in Hs. exact Hs.
Qed.

Lemma trim_idempotent (s : string) :
  JsString.trim (JsString.trim s) = JsString.trim s.
Proof.
  unfold JsString.trim.
  rewrite (trimStart_fixed (JsString.trimEnd _)).
  - apply trimEnd_fixed.
  - apply trimEnd_no_leading_space, trimStart_no_leading_space.
Qed.

(** X15. The entries that the wizard makes out of a comma-separated field
    (hobbies, anniversary dates) are never empty and carry no white space
    around them: trimming an entry again gives the entry back. *)
Theorem comma_list_entries (s x : string) :
  x ∈ comma_list s -> x <> "" /\ JsString.trim x = x.
Proof.
  unfold comma_list. intros Hx.
  apply list_elem_of_filter in Hx as [Ht Hin].
  apply list_elem_of_fmap in Hin as (y & -> & _).
  split.
  - intros E. rewrite E in Ht. discriminate Ht.
  - apply trim_idempotent.
Qed.

Lemma comma_list_entries_witness :
  "chess" ∈ comma_list " hiking , ,chess,"
  /\ "chess" <> "" /\ JsString.trim "chess" = "chess".
Proof.
  assert (H : "chess" ∈ comma_list " hiking , ,chess,").
  { apply list_elem_of_In. vm_compute. tauto. }
  split; [exact H |].
  apply (comma_list_entries " hiking , ,chess," "chess"). exact H.
Defined.

Example comma_list_sample :
  comma_list " hiking , ,chess," = ["hiking"; "chess"].
Proof. reflexivity. Qed.

(** ** The body the wizard posts *)

Lemma get_stringify_skip (k k' : string) (v : option json) (o : Json.literal) :
  String.eqb k k' = false ->
  Json.get k (Json.stringify ((k', v) :: o)) = Json.get k (Json.stringify o).
Proof.
  intros E. destruct v; [| reflexivity].
  unfold Json.get, Json.stringify, Json.stringify_props. cbn. by rewrite E.
Qed.

Lemma get_stringify_hit (k : string) (v : option json) (o : Json.literal) :
  Json.get k (Json.stringify ((k, v) :: o))
  = match v with Some x => Some x | None => Json.get k (Json.stringify o) end.
Proof.
  destruct v; [| reflexivity].
  unfold Json.get, Json.stringify, Json.stringify_props. cbn.
  by rewrite String.eqb_refl.
Qed.

Ltac get_field :=
  repeat first [ rewrite get_stringify_skip by reflexivity
               | rewrite get_stringify_hit ].

(** X16. The body that the wizard posts to /api/relationships has the
    relationship status as relationship_type and a partner_profile with the
    name and a preferences object. Preferences always hold the birthday and
    an anniversary_dates array (empty when the field is empty); interests
    and the six optional texts (love language, zodiac sign, music, religion,
    vacations, fashion, diet) are left out when their field is empty. *)
Theorem Wizard_payload_shape (userId : option string) (form : Wizard.form) :
  exists pp prefs,
    Json.get "partner_profile" (Json.stringify (Wizard_payload userId form)) = Some pp
    /\ Json.get "relationship_type" (Json.stringify (Wizard_payload userId form))
       = Some (JStr (Wizard.relationship_status form))
    /\ Json.get "name" pp = Some (JStr (Wizard.name form))
    /\ Json.get "love_language" pp = sent_if_filled (Wizard.love_language form)
    /\ Json.get "interests" pp
       = match Wizard.hobbies form with
         | EmptyString => None
         | hobbies => Some (Json.strings (comma_list hobbies))
         end
    /\ Json.get "preferences" pp = Some prefs
    /\ Json.get "birthday" prefs = Some (JStr (Wizard.birthday form))
    /\ Json.get "anniversary_dates" prefs
       = Some (Json.strings match Wizard.anniversary_dates form with
                            | EmptyString => []
                            | dates => comma_list dates
                            end)
    /\ Json.get "zodiac_sign" prefs = sent_if_filled (Wizard.zodiac_sign form)
    /\ Json.get "music_preferences" prefs = sent_if_filled (Wizard.music_preferences form)
    /\ Json.get "religious_beliefs" prefs = sent_if_filled (Wizard.religious_beliefs form)
    /\ Json.get "ideal_vacations" prefs = sent_if_filled (Wizard.ideal_vacations form)
    /\ Json.get "fashion_preferences" prefs
       = sent_if_filled (Wizard.fashion_preferences form)
    /\ Json.get "dietary_restrictions" prefs
       = sent_if_filled (Wizard.dietary_restrictions form).
Proof.
  eexists. eexists.
  split; [reflexivity |]. split; [reflexivity |].
  split; [reflexivity |].
  split; [get_field; destruct (Wizard.love_language form); reflexivity |].
  split; [get_field; destruct (Wizard.hobbies form); reflexivity |].
  split; [get_field; reflexivity |].
  split; [reflexivity |].
  split; [get_field; destruct (Wizard.anniversary_dates form); reflexivity |].
  repeat split; get_field;
    match goal with
    | |- context [Json.str_or_undefined ?f] => destruct f; reflexivity
    end.
Qed.

Example Wizard_payload_sample :
  Json.stringify
    (Wizard_payload (Some "user_17")
       (Wizard.mkForm "Sam" "1990-04-02" "romantic" "" "" "Aries" "" "" "" "chess, " "" ""))
  = JObj [("user_id", JStr "user_17"); ("relationship_type", JStr "romantic");
          ("partner_profile",
            JObj [("name", JStr "Sam"); ("interests", JArr [JStr "chess"]);
                  ("preferences",
                    JObj [("birthday", JStr "1990-04-02");
                          ("anniversary_dates", JArr []);
                          ("zodiac_sign", JStr "Aries")])])].
Proof. reflexivity. Qed.

(** ** The loaders and the effect on the user *)

Lemma exec_no_await_then (m k : M unit) (w : World) :
  exec (no_await m;; k) w = exec k (exec m w).
Proof. reflexivity. Qed.

Lemma falsy_truthy_id (id : string) : id <> "" -> falsy (Some id) = false.
Proof. destruct id; [congruence | reflexivity]. Qed.

(** X17. Each loader asks for its resource once; a successful reply
    replaces its own state cell and no other (by the empty list when the
    reply lacks the list), a failed one leaves every cell as it was.
    [loadSessions] and [loadAdviceList] send nothing when no user is set. *)
Theorem loaders_replace_their_cell (c : AppState) (w : World)
    (netP : reply UserProfile.t) (netR : reply (option (list Relationship.t)))
    (netS : reply (option (list Session.t)))
    (netA : reply (option (list AdviceItem.t))) :
  (ui (exec (loadUserProfile c netP) w)
   = match successful netP with
     | Some data => upd_userProfile (Some data) (ui w)
     | None => ui w
     end
   /\ requests (exec (loadUserProfile c netP) w)
      = requests w ++ [GET (API_BASE_URL +:+ "/api/users/" +:+ template (userId c))])
  /\ (ui (exec (loadRelationships c netR) w)
      = match successful netR with
        | Some data => upd_relationships (default [] data) (ui w)
        | None => ui w
        end
      /\ requests (exec (loadRelationships c netR) w)
         = requests w
           ++ [GET (API_BASE_URL +:+ "/api/relationships/" +:+ template (userId c))])
  /\ (falsy (userId c) = true ->
      loadSessions c netS w = (Normal tt, w) /\ loadAdviceList c netA w = (Normal tt, w))
  /\ (falsy (userId c) = false ->
      ui (exec (loadSessions c netS) w)
      = match successful netS with
        | Some data => upd_sessions (default [] data) (ui w)
        | None => ui w
        end
      /\ requests (exec (loadSessions c netS) w)
         = requests w ++ [GET (API_BASE_URL +:+ "/api/sessions/" +:+ template (userId c))]
      /\ ui (exec (loadAdviceList c netA) w)
         = match successful netA with
           | Some data => upd_adviceList (default [] data) (ui w)
           | None => ui w
           end
      /\ requests (exec (loadAdviceList c netA) w)
         = requests w ++ [GET (API_BASE_URL +:+ "/api/advice/" +:+ template (userId c))]).
Proof.
  unfold loadUserProfile, loadRelationships, loadSessions, loadAdviceList.
  repeat split.
  - destruct netP as [e|[d|st]]; reflexivity.
  - destruct netP as [e|[d|st]]; reflexivity.
  - destruct netR as [e|[d|st]]; reflexivity.
  - destruct netR as [e|[d|st]]; reflexivity.
  - rewrite H. reflexivity.
  - rewrite H. reflexivity.
  - rewrite H. destruct netS as [e|[d|st]]; reflexivity.
  - rewrite H. destruct netS as [e|[d|st]]; reflexivity.
  - rewrite H. destruct netA as [e|[d|st]]; reflexivity.
  - rewrite H. destruct netA as [e|[d|st]]; reflexivity.
Qed.

Lemma loaders_replace_their_cell_witness :
  falsy (userId (initial_state None)) = true
  /\ loadSessions (initial_state None) (Rejected "offline") Sample.fresh
     = (Normal tt, Sample.fresh).
Proof.
  split; [reflexivity |].
  destruct (loaders_replace_their_cell (initial_state None) Sample.fresh
              (Rejected "offline") (Rejected "offline") (Rejected "offline")
              (Rejected "offline")) as (_ & _ & H & _).
  apply H. reflexivity.
Defined.

Lemma loader_requests (c : AppState) (w : World)
    (netP : reply UserProfile.t) (netR : reply (option (list Relationship.t)))
    (netS : reply (option (list Session.t)))
    (netA : reply (option (list AdviceItem.t))) :
  requests (exec (loadUserProfile c netP) w)
  = requests w ++ [GET (API_BASE_URL +:+ "/api/users/" +:+ template (userId c))]
  /\ requests (exec (loadRelationships c netR) w)
     = requests w ++ [GET (API_BASE_URL +:+ "/api/relationships/" +:+ template (userId c))]
  /\ (falsy (userId c) = false ->
      requests (exec (loadSessions c netS) w)
      = requests w ++ [GET (API_BASE_URL +:+ "/api/sessions/" +:+ template (userId c))]
      /\ requests (exec (loadAdviceList c netA) w)
         = requests w ++ [GET (API_BASE_URL +:+ "/api/advice/" +:+ template (userId c))]).
Proof.
  unfold loadUserProfile, loadRelationships, loadSessions, loadAdviceList.
  repeat split; try (intros H; rewrite H).
  - destruct netP as [e|[d|st]]; reflexivity.
  - destruct netR as [e|[d|st]]; reflexivity.
  - rewrite H. destruct netS as [e|[d|st]]; reflexivity.
  - rewrite H. destruct netA as [e|[d|st]]; reflexivity.
Qed.

Lemma effect_without_user (c : AppState) (nets : effect_replies) (w : World) :
  falsy (userId c) = true -> exec (userId_effect c nets) w = w.
Proof.
  intros H. unfold userId_effect, loadSessions. rewrite H. reflexivity.
Qed.

Lemma effect_with_user (c : AppState) (nets : effect_replies) (w : World) :
  falsy (userId c) = false ->
  exec (userId_effect c nets) w
  = exec (loadSessions c (net_sessions' nets))
      (exec (loadAdviceList c (net_advice nets))
         (exec (loadSessions c (net_sessions nets))
            (exec (loadRelationships c (net_relationships nets))
               (exec (loadUserProfile c (net_profile nets)) w)))).
Proof. intros H. unfold userId_effect. rewrite H. reflexivity. Qed.

Lemma effect_requests (c : AppState) (nets : effect_replies) (w : World) :
  falsy (userId c) = false ->
  requests (exec (userId_effect c nets) w)
  = requests w
    ++ [GET (API_BASE_URL +:+ "/api/users/" +:+ template (userId c));
        GET (API_BASE_URL +:+ "/api/relationships/" +:+ template (userId c));
        GET (API_BASE_URL +:+ "/api/sessions/" +:+ template (userId c));
        GET (API_BASE_URL +:+ "/api/advice/" +:+ template (userId c));
        GET (API_BASE_URL +:+ "/api/sessions/" +:+ template (userId c))].
Proof.
  intros H. rewrite (effect_with_user c nets w H).
  repeat match goal with
         | |- context [requests (exec (?f c ?n) ?x)] =>
             first
               [ rewrite (proj1 (loader_requests c x n (Rejected "") (Rejected "") (Rejected "")))
               | rewrite (proj1 (proj2 (loader_requests c x (Rejected "") n (Rejected "") (Rejected ""))))
               | rewrite (proj1 (proj2 (proj2 (loader_requests c x (Rejected "") (Rejected "") n (Rejected ""))) H))
               | rewrite (proj2 (proj2 (proj2 (loader_requests c x (Rejected "") (Rejected "") (Rejected "") n)) H)) ]
         end.
  rewrite <- !app_assoc. reflexivity.
Qed.

Lemma effect_profile (c : AppState) (nets : effect_replies) (w : World) :
  falsy (userId c) = false ->
  userProfile (ui (exec (userId_effect c nets) w))
  = match successful (net_profile nets) with
    | Some data => Some data
    | None => userProfile (ui w)
    end
  /\ userId (ui (exec (userId_effect c nets) w)) = userId (ui w).
Proof.
  intros H. rewrite (effect_with_user c nets w H).
  unfold loadUserProfile, loadRelationships, loadSessions, loadAdviceList.
  rewrite H.
  destruct nets as [[?|[?|?]] [?|[?|?]] [?|[?|?]] [?|[?|?]] [?|[?|?]]];
    split; reflexivity.
Qed.

(** ** Mounting the application *)

Lemma mount_unfold (store : gmap string string) (nets : effect_replies) :
  exists w1,
    mount store nets = unmount (exec (userId_effect (ui w1) nets) w1)
    /\ ui w1 = initial_state (store !! "luvvtapp_user_id")
    /\ requests w1 = [] /\ console w1 = [] /\ localStorage w1 = store.
Proof. eexists. split; [reflexivity |]. repeat split; reflexivity. Qed.

(** X18. Mounted in a browser that stores no identifier (or an empty one),
    the client sends no request at all, has no user and shows the
    onboarding screen. *)
Theorem mount_without_stored_user (store : gmap string string) (nets : effect_replies) :
  falsy (store !! "luvvtapp_user_id") = true ->
  requests (mount store nets) = []
  /\ ui (mount store nets) = initial_state None
  /\ shows_onboarding (ui (mount store nets)) = true.
Proof.
  intros H. destruct (mount_unfold store nets) as (w1 & -> & U & R & _ & _).
  assert (Hf : falsy (userId (ui w1)) = true) by (rewrite U; cbn; rewrite H; reflexivity).
  rewrite (effect_without_user _ nets w1 Hf).
  change (requests (unmount w1)) with (requests w1).
  change (ui (unmount w1)) with (ui w1).
  rewrite R, U. unfold initial_state. rewrite H. repeat split; reflexivity.
Qed.

Lemma mount_without_stored_user_witness :
  falsy ((∅ : gmap string string) !! "luvvtapp_user_id") = true
  /\ requests (mount ∅ offline) = [].
Proof.
  split; [reflexivity |].
  apply (mount_without_stored_user ∅ offline). reflexivity.
Defined.

(** X19. Mounted with a stored identifier, the client adopts it and sends
    five requests for it, in this order: the profile, the relationships, the
    sessions, the advice list and the sessions a second time. The profile is
    the one returned, and the onboarding screen is shown exactly when the
    profile request fails, although a user is set. *)
Theorem mount_with_stored_user
    (store : gmap string string) (nets : effect_replies) (id : string) :
  store !! "luvvtapp_user_id" = Some id -> id <> "" ->
  userId (ui (mount store nets)) = Some id
  /\ requests (mount store nets)
     = [GET ("http://localhost:8000/api/users/" +:+ id);
        GET ("http://localhost:8000/api/relationships/" +:+ id);
        GET ("http://localhost:8000/api/sessions/" +:+ id);
        GET ("http://localhost:8000/api/advice/" +:+ id);
        GET ("http://localhost:8000/api/sessions/" +:+ id)]
  /\ userProfile (ui (mount store nets)) = successful (net_profile nets)
  /\ (shows_onboarding (ui (mount store nets)) = true
      <-> failed (net_profile nets) = true).
Proof.
  intros Hs Hid. destruct (mount_unfold store nets) as (w1 & -> & U & R & _ & _).
  assert (Hu : userId (ui w1) = Some id).
  { rewrite U, Hs. unfold initial_state. rewrite (falsy_truthy_id id Hid). reflexivity. }
  assert (Hf : falsy (userId (ui w1)) = false) by (rewrite Hu; exact (falsy_truthy_id id Hid)).
  destruct (effect_profile (ui w1) nets w1 Hf) as [Hp Hu'].
  pose proof (effect_requests (ui w1) nets w1 Hf) as Hr.
  set (w2 := exec (userId_effect (ui w1) nets) w1) in *.
  change (requests (unmount w2)) with (requests w2).
  change (ui (unmount w2)) with (ui w2).
  assert (Hp' : userProfile (ui w2) = successful (net_profile nets)).
  { rewrite Hp, U. destruct (successful (net_profile nets)); reflexivity. }
  split; [rewrite Hu', Hu; reflexivity |].
  split; [rewrite Hr, R, Hu; reflexivity |].
  split; [exact Hp' |].
  unfold shows_onboarding. rewrite Hu', Hu, (falsy_truthy_id id Hid), Hp'.
  rewrite failed_successful. destruct (successful (net_profile nets)); cbn.
  - split; discriminate.
  - split; reflexivity.
Qed.

Lemma mount_with_stored_user_witness :
  ({["luvvtapp_user_id" := "user_17"]} : gmap string string) !! "luvvtapp_user_id"
  = Some "user_17"
  /\ "user_17" <> ""
  /\ shows_onboarding (ui (mount {["luvvtapp_user_id" := "user_17"]} offline)) = true.
Proof.
  split; [reflexivity |]. split; [discriminate |].
  destruct (mount_with_stored_user {["luvvtapp_user_id" := "user_17"]} offline "user_17")
    as (_ & _ & _ & H); [reflexivity | discriminate |].
  apply H. reflexivity.
Defined.

(** ** The user and the storage stay in step *)

#[global] Instance user_untouched_preorder : PreOrder user_untouched.
Proof.
  split; [intros w; split; reflexivity |].
  intros a b d [U1 L1] [U2 L2]. split; congruence.
Qed.

Ltac user_prim :=
  let w := fresh "w" in
  intros w; autounfold with monad; split; reflexivity.

Lemma effect_user_untouched (c : AppState) (nets : effect_replies) :
  preserves user_untouched (userId_effect c nets).
Proof. preserve_with user_prim. Qed.

Lemma in_sync_untouched (w w' : World) :
  user_untouched w w' -> user_in_sync w -> user_in_sync w'.
Proof. intros [U L] H. unfold user_in_sync in *. rewrite U, L. exact H. Qed.

Lemma handler_in_sync (ev : event) (w : World) :
  user_in_sync w -> user_in_sync (exec (handler ev w) w).
Proof.
  intros Hs.
  assert (Hframe : preserves user_untouched (handler ev w)
                   -> user_in_sync (exec (handler ev w) w)).
  { intros Hp. exact (in_sync_untouched _ _ (Hp w) Hs). }
  destruct ev;
    try (apply Hframe; cbn [handler]; solve [preserve_with user_prim]); clear Hframe.
  - unfold user_in_sync. cbn [handler]. run_handler.
    rewrite lookup_delete_eq. reflexivity.
  - cbn [handler]. unfold Onboarding_handleSubmit, createUser.
    destruct net as [e|[[]|st]]; [| destruct netProfile as [e|[p|st]] |];
      run_handler; try exact Hs;
      unfold user_in_sync; cbn; rewrite lookup_insert_eq; reflexivity.
Qed.

Lemma dispatch_in_sync (ev : event) (nets : effect_replies) (w : World) :
  user_in_sync w -> user_in_sync (dispatch ev nets w).
Proof.
  intros Hs. apply (handler_in_sync ev) in Hs.
  unfold dispatch, commit.
  set (w1 := exec (handler ev w) w) in *.
  set (w2 := if bool_decide (userId (ui w1) = userId (ui w)) then w1
             else exec (userId_effect (ui w1) nets) w1).
  assert (H2 : user_in_sync w2).
  { unfold w2. case_bool_decide; [exact Hs |].
    exact (in_sync_untouched _ _ (effect_user_untouched (ui w1) nets w1) Hs). }
  exact H2.
Qed.

Lemma mount_user (store : gmap string string) (nets : effect_replies) :
  userId (ui (mount store nets)) = userId (initial_state (store !! "luvvtapp_user_id"))
  /\ localStorage (mount store nets) = store.
Proof.
  destruct (mount_unfold store nets) as (w1 & -> & U & _ & _ & L).
  destruct (effect_user_untouched (ui w1) nets w1) as [U' L'].
  change (userId (ui (exec (userId_effect (ui w1) nets) w1)) = userId (ui w1)) in U'.
  change (localStorage (exec (userId_effect (ui w1) nets) w1) = localStorage w1) in L'.
  change (ui (unmount ?x)) with (ui x). change (localStorage (unmount ?x)) with (localStorage x).
  rewrite U', L', U, L. split; reflexivity.
Qed.

(** X20. In every world the client reaches, the current user is the
    identifier that local storage holds under the application key (no user
    when it holds none or an empty one); so reloading the page at any moment
    restores the same user. *)
Theorem user_and_storage_in_sync
    (store : gmap string string) (nets : effect_replies)
    (evs : list (event * effect_replies)) (nets' : effect_replies) :
  userId (ui (run evs (mount store nets)))
  = userId (initial_state (localStorage (run evs (mount store nets)) !! "luvvtapp_user_id"))
  /\ userId (ui (mount (localStorage (run evs (mount store nets))) nets'))
     = userId (ui (run evs (mount store nets))).
Proof.
  assert (H : user_in_sync (run evs (mount store nets))).
  { assert (H0 : user_in_sync (mount store nets)).
    { unfold user_in_sync. destruct (mount_user store nets) as [U L].
      rewrite U, L. reflexivity. }
    revert H0. generalize (mount store nets).
    induction evs as [|[ev n] evs IH]; intros w Hw; cbn [run]; [exact Hw |].
    apply IH, dispatch_in_sync, Hw. }
  split; [exact H |].
  rewrite (proj1 (mount_user _ nets')). symmetry. exact H.
Qed.

(** X21. Sign Out forgets the identifier and nothing else: no request is
    sent and every other state cell (messages, profile, relationships,
    sessions, advice, the selected relationship) is kept as it was; the
    onboarding screen is shown. *)
Theorem signOut_keeps_the_rest (nets : effect_replies) (w : World) :
  ui (dispatch EvSignOut nets w) = upd_userId None (ui w)
  /\ requests (dispatch EvSignOut nets w) = requests w
  /\ shows_onboarding (ui (dispatch EvSignOut nets w)) = true.
Proof.
  unfold dispatch, commit. cbn [handler].
  set (w1 := exec signOut w).
  assert (U1 : ui w1 = upd_userId None (ui w)) by reflexivity.
  assert (R1 : requests w1 = requests w) by reflexivity.
  assert (Hf : falsy (userId (ui w1)) = true) by reflexivity.
  rewrite (effect_without_user (ui w1) nets w1 Hf).
  destruct (render_unmount w1) as (_ & _ & U).
  destruct (render_unmount_traces w1) as (Rq & _).
  destruct (bool_decide _); rewrite U, Rq, U1, R1; repeat split; reflexivity.
Qed.

(** ** Signing up *)

Lemma createUser_success (c : AppState) (now : N) (netProfile : reply UserProfile.t)
    (name email : string) (assessment : json) (w : World) :
  userId (ui (exec (createUser c now (Resolved (Success tt)) netProfile
                      name email assessment) w))
  = Some ("user_" +:+ pretty now)
  /\ Request.url <$> requests (exec (createUser c now (Resolved (Success tt)) netProfile
                                       name email assessment) w)
     = (Request.url <$> requests w)
       ++ ["http://localhost:8000/api/users";
           "http://localhost:8000/api/users/" +:+ template (userId c)].
Proof.
  unfold createUser.
  destruct netProfile as [e|[p|st]]; run_handler;
    rewrite <- ?app_assoc, !fmap_app; split; reflexivity.
Qed.

(** X22. When the onboarding form is submitted and the user is created,
    the new identifier is adopted, but the profile request that [createUser]
    itself sends still asks for the user of the render it was created in
    ('null' when there was none); the profile, relationships, sessions and
    advice of the new user are asked for afterwards by the effect. *)
Theorem signup_requests
    (w : World) (now : N) (netProfile : reply UserProfile.t) (nets : effect_replies) :
  userId (ui w) <> Some ("user_" +:+ pretty now) ->
  userId (ui (dispatch (EvOnboardingSubmit now (Resolved (Success tt)) netProfile) nets w))
  = Some ("user_" +:+ pretty now)
  /\ Request.url <$> requests
       (dispatch (EvOnboardingSubmit now (Resolved (Success tt)) netProfile) nets w)
     = (Request.url <$> requests w)
       ++ ["http://localhost:8000/api/users";
           "http://localhost:8000/api/users/" +:+ template (userId (ui w));
           "http://localhost:8000/api/users/user_" +:+ pretty now;
           "http://localhost:8000/api/relationships/user_" +:+ pretty now;
           "http://localhost:8000/api/sessions/user_" +:+ pretty now;
           "http://localhost:8000/api/advice/user_" +:+ pretty now;
           "http://localhost:8000/api/sessions/user_" +:+ pretty now].
Proof.
  intros Hnew. unfold dispatch, commit. cbn [handler].
  unfold Onboarding_handleSubmit. cbv zeta.
  change (exec (no_await ?m) ?x) with (exec m x).
  match goal with
  | |- context [exec (createUser ?c ?n ?r ?p ?a ?b ?d) w] =>
      destruct (createUser_success c n p a b d w) as [U R];
      set (w1 := exec (createUser c n r p a b d) w) in *
  end.
  rewrite bool_decide_eq_false_2 by (rewrite U; congruence).
  assert (Hf : falsy (userId (ui w1)) = false) by (rewrite U; reflexivity).
  destruct (effect_profile (ui w1) nets w1 Hf) as [_ U2].
  pose proof (effect_requests (ui w1) nets w1 Hf) as R2.
  set (w2 := exec (userId_effect (ui w1) nets) w1) in *.
  destruct (render_unmount w2) as (_ & _ & U3).
  destruct (render_unmount_traces w2) as (R3 & _).
  rewrite U3, R3, U2, R2, fmap_app, R, U.
  split; [reflexivity |]. rewrite <- app_assoc. reflexivity.
Qed.

Lemma signup_requests_witness :
  userId (ui Sample.fresh) <> Some ("user_" +:+ pretty 1700000000000%N)
  /\ userId (ui (dispatch (EvOnboardingSubmit 1700000000000 (Resolved (Success tt))
                             (Rejected "offline")) offline Sample.fresh))
     = Some ("user_" +:+ pretty 1700000000000%N).
Proof.
  split; [discriminate |].
  apply (signup_requests Sample.fresh 1700000000000 (Rejected "offline") offline).
  discriminate.
Defined.

(** ** The reference partner of an advice *)

(** X23. Choosing an option in the partner select of the advice panel sets
    the reference partner to the first relationship whose partner name is
    the chosen value, and to null when there is none; a missing name counts
    as the empty value, so the "No partner" option picks a relationship
    without a partner name if there is one. No other cell changes. *)
Theorem changeAdvicePartner_first_match (c : AppState) (value : string) (w : World) :
  ui (exec (changeAdvicePartner c value) w)
  = upd_advicePartner (advicePartner (ui (exec (changeAdvicePartner c value) w))) (ui w)
  /\ (advicePartner (ui (exec (changeAdvicePartner c value) w)) = None
      <-> Forall (fun r => Relationship.named value r = false) (relationships c))
  /\ (forall r,
        advicePartner (ui (exec (changeAdvicePartner c value) w)) = Some r ->
        Relationship.named value r = true
        /\ exists i, relationships c !! i = Some r
                     /\ forall j y, relationships c !! j = Some y -> j < i ->
                                    Relationship.named value y = false).
Proof.
  unfold changeAdvicePartner. run_handler.
  split; [reflexivity |].
  destruct (list_find _ (relationships c)) as [[i r]|] eqn:E; cbn.
  - apply list_find_Some in E as (Hi & Hr & Hmin). split.
    + split; [discriminate |]. intros Hall.
      apply list_elem_of_lookup_2 in Hi.
      rewrite Forall_forall in Hall. specialize (Hall r Hi). congruence.
    + intros r' [= <-]. split; [exact Hr |].
      exists i. split; [exact Hi |].
      intros j y Hj Hlt. specialize (Hmin j y Hj Hlt).
      destruct (Relationship.named value y); [congruence | reflexivity].
  - apply list_find_None in E. split; [| discriminate].
    split; [| reflexivity]. intros _.
    eapply Forall_impl; [exact E |]. cbn. intros r Hr.
    destruct (Relationship.named value r); [congruence | reflexivity].
Qed.

Lemma changeAdvicePartner_first_match_witness :
  advicePartner (ui (exec (changeAdvicePartner Sample.typing "Sam") Sample.general_chat))
  = Some Sample.sam
  /\ Relationship.named "Sam" Sample.sam = true.
Proof.
  split; [reflexivity |].
  destruct (changeAdvicePartner_first_match Sample.typing "Sam" Sample.general_chat)
    as (_ & _ & H).
  apply (H Sample.sam). reflexivity.
Defined.

(** ** The relationship form that is never shown *)

#[global] Instance keeps_off_addRelationship_preorder : PreOrder keeps_off_addRelationship.
Proof. split; [intros w H; exact H | intros a b d Hab Hbd H; auto]. Qed.

Ltac view_prim :=
  let w := fresh "w" in
  let Hv := fresh "Hv" in
  intros w Hv; autounfold with monad; cbn; first [exact Hv | discriminate].

Lemma handler_keeps_off_addRelationship (ev : event) (w0 : World) :
  preserves keeps_off_addRelationship (handler ev w0).
Proof. destruct ev; cbn [handler]; preserve_with view_prim. Qed.

Lemma effect_keeps_off_addRelationship (c : AppState) (nets : effect_replies) :
  preserves keeps_off_addRelationship (userId_effect c nets).
Proof. preserve_with view_prim. Qed.

(** X24. No event ever selects the view of [AddRelationshipView]: in every
    world the client reaches the current view is the chat, the partner
    wizard or the settings, so that form and its submit are never reached. *)
Theorem addRelationship_view_never_shown
    (store : gmap string string) (nets : effect_replies)
    (evs : list (event * effect_replies)) :
  currentView (ui (run evs (mount store nets))) <> addRelationship.
Proof.
  assert (H0 : currentView (ui (mount store nets)) <> addRelationship).
  { destruct (mount_unfold store nets) as (w1 & -> & U & _).
    change (ui (unmount ?x)) with (ui x).
    apply (effect_keeps_off_addRelationship (ui w1) nets w1).
    rewrite U. discriminate. }
  revert H0. generalize (mount store nets).
  induction evs as [|[ev n] evs IH]; intros w Hw; cbn [run]; [exact Hw |].
  apply IH. unfold dispatch, commit.
  pose proof (handler_keeps_off_addRelationship ev w w Hw) as H1.
  fold (exec (handler ev w) w) in H1.
  set (w1 := exec (handler ev w) w) in *.
  change (ui (unmount (exec render ?x))) with (ui x).
  case_bool_decide; [exact H1 |].
  exact (effect_keeps_off_addRelationship (ui w1) n w1 H1).
Qed.

(** ** The session lists *)

(** X25. The sidebar lists a session under General when its context type is
    missing or 'general' and under Partner when it is 'partner'; no session
    is in both lists, and a session with any other context type is in
    neither. *)
Theorem session_lists (s : AppState) (x : Session.t) :
  (x ∈ general_sessions s
   <-> x ∈ sessions s
       /\ (Session.context_type x = None \/ Session.context_type x = Some "general"))
  /\ (x ∈ partner_sessions s
      <-> x ∈ sessions s /\ Session.context_type x = Some "partner")
  /\ ~ (x ∈ general_sessions s /\ x ∈ partner_sessions s).
Proof.
  unfold general_sessions, partner_sessions. rewrite !list_elem_of_filter.
  destruct (Session.context_type x) as [t|]; cbn; repeat split;
    intuition (try discriminate; try congruence).
Qed.

(** ** A new chat *)

(** X26. New Chat empties the message list and forgets the session but,
    unlike choosing a relationship, keeps the relationship that is selected:
    the next message typed and sent goes out with a null session id and with
    the partner profile and relationship type it would have had before. *)
Theorem newChat_keeps_relationship
    (w : World) (value : string) (net : reply ChatReply.t)
    (nets1 nets2 nets3 : effect_replies) :
  JsString.trim value <> "" ->
  messages (ui (dispatch EvNewChat nets1 w)) = []
  /\ selectedRelationship (ui (dispatch EvNewChat nets1 w)) = selectedRelationship (ui w)
  /\ exists body,
       requests (dispatch (EvSend net) nets3
                   (dispatch (EvInput value) nets2 (dispatch EvNewChat nets1 w)))
       = requests w
         ++ [Request.mk "POST" "http://localhost:8000/api/chat"
               [("Content-Type", "application/json")] (Some body)]
       /\ Json.get "session_id" body = Some JNull
       /\ Json.get "partner_profile" body
          = selectedRelationship (ui w) ≫= Relationship.partner_profile
       /\ Json.get "relationship_type" body
          = Json.get "relationship_type" (Json.stringify (chat_payload (ui w))).
Proof.
  intros Hv.
  destruct (dispatch_same_user EvNewChat nets1 w eq_refl) as (U & Rq & _).
  set (w1 := dispatch EvNewChat nets1 w) in *.
  split; [rewrite U; reflexivity |]. split; [rewrite U; reflexivity |].
  eexists. split.
  { rewrite (type_and_send w1 value net nets2 nets3 Hv), Rq. reflexivity. }
  destruct (chat_body_gets (upd_inputMessage value (ui w1))) as (_ & Ht & Hp & Hsid).
  destruct (chat_body_gets (ui w)) as (_ & Ht' & _ & _).
  rewrite Hsid, Hp, Ht, Ht', U. repeat split; reflexivity.
Qed.

Lemma newChat_keeps_relationship_witness :
  JsString.trim "hello again" <> ""
  /\ messages (ui (dispatch EvNewChat offline Sample.partner_chat)) = [].
Proof.
  split; [discriminate |].
  apply (newChat_keeps_relationship Sample.partner_chat "hello again"
           (Rejected "offline") offline offline offline).
  discriminate.
Defined.
